(** * edit-github-blob: a shallow embedding of [src/edit-github-blob.ts]

    The module exports one asynchronous function that edits a single file of
    a GitHub repository through the REST client it is handed, forking the
    repository and opening a pull request when it has to.  Every [await] of
    the source is a call into the outside world; the embedding threads an
    abstract world state through these calls and records each call, with the
    answer it got, in a log. *)

From Stdlib Require Import ZArith List String Ascii Bool Lia.
From Stdlib Require Import DecimalString DecimalZ DecimalPos.
Import ListNotations.
Open Scope string_scope.
Open Scope Z_scope.

(** ** Values exchanged with the API *)

(** The object [{ owner, repo }] that names a repository. *)
Record RepositoryRef := mkRepo { owner : string; repo : string }.

(** [repoRes.data]: the fields of the answer of [repos.get] the code reads. *)
Record Permissions := mkPermissions { push : bool }.
Record ReposGetData := mkReposGetData {
  default_branch : string;
  permissions : Permissions
}.

(** [branchRes.data]: [protected] and [commit.sha]. *)
Record CommitRef := mkCommitRef { sha : string }.
Record BranchData := mkBranchData {
  protected : bool;
  commit : CommitRef
}.

(** [forkRes.data]: [owner.login] and [name]. *)
Record Owner := mkOwner { login : string }.
Record ForkData := mkForkData {
  fork_owner : Owner;
  name : string
}.

(** [fileRes.data]: an array for a directory, an object for anything else;
    of the object the code reads [content], which may be missing, and
    [sha]. *)
Record FileData := mkFileData {
  content : option string;
  file_sha : string
}.
Inductive ContentsData :=
| Listing (entries : list string)
| File (fileData : FileData).

(** [commitRes.data.commit.html_url] and [prRes.data.html_url]. *)
Record CommitData := mkCommitData { commit_html_url : string }.
Record PullData := mkPullData { html_url : string }.

(** What a rejected promise or a [throw] carries: an [Error] made by the
    module itself ([new Error(message)]) or whatever the client rejects
    with. *)
Inductive exn :=
| JsError (message : string)
| HttpError (status : Z) (message : string).

Definition Res (A : Type) : Type := (A + exn)%type.

(** The caller's [params] (the [apiClient] field is the environment below).
    [replace] is a callback that returns: one that throws would end the run
    with its own error, right after the fetch. *)
Record Options := mkOptions {
  params_owner : string;
  params_repo : string;
  filePath : string;
  branch : option string;
  replace : string -> string;
  commitMessage : option string
}.

(** ** The log of interactions *)

Inductive Request :=
| ReposGet (r : RepositoryRef)
| ReposGetBranch (r : RepositoryRef) (branch : string)
| ReposCreateFork (r : RepositoryRef)
| GitCreateRef (r : RepositoryRef) (ref sha : string)
| ReposGetContents (r : RepositoryRef) (path ref : string)
| ReposCreateOrUpdateFile (r : RepositoryRef)
    (path message content sha branch : string)
| PullsCreate (r : RepositoryRef) (base head title body : string)
| DateNow
| SetTimeout (delay : Z).

Inductive Response :=
| RepoRes (d : ReposGetData)
| BranchRes (d : BranchData)
| ForkRes (d : ForkData)
| RefCreated
| ContentsRes (d : ContentsData)
| CommitRes (d : CommitData)
| PullRes (d : PullData)
| Clock (ms : Z)
| TimerFired
| Rejected (e : exn).

Record Event := Ev { req : Request; resp : Response }.

(** The requests that change something on the server. *)
Definition is_write (r : Request) : bool :=
  match r with
  | ReposCreateFork _ | GitCreateRef _ _ _
  | ReposCreateOrUpdateFile _ _ _ _ _ _ | PullsCreate _ _ _ _ _ => true
  | _ => false
  end.

Definition is_createFork (r : Request) : bool :=
  match r with ReposCreateFork _ => true | _ => false end.
Definition is_createRef (r : Request) : bool :=
  match r with GitCreateRef _ _ _ => true | _ => false end.
Definition is_commit (r : Request) : bool :=
  match r with ReposCreateOrUpdateFile _ _ _ _ _ _ => true | _ => false end.
Definition is_pull (r : Request) : bool :=
  match r with PullsCreate _ _ _ _ _ => true | _ => false end.
Definition is_timeout (r : Request) : bool :=
  match r with SetTimeout _ => true | _ => false end.

(** ** The environment: the API client, the clock and the timer

    [W] is the state of everything outside the function.  Each method of the
    client takes the state it is called in and gives its answer (a value or a
    rejection) and the state it leaves. *)
Record Env (W : Type) := mkEnv {
  repos_get : RepositoryRef -> W -> Res ReposGetData * W;
  repos_getBranch : RepositoryRef -> string -> W -> Res BranchData * W;
  repos_createFork : RepositoryRef -> W -> Res ForkData * W;
  git_createRef : RepositoryRef -> string -> string -> W -> Res unit * W;
  repos_getContents :
    RepositoryRef -> string -> string -> W -> Res ContentsData * W;
  repos_createOrUpdateFile :
    RepositoryRef -> string -> string -> string -> string -> string ->
    W -> Res CommitData * W;
  pulls_create :
    RepositoryRef -> string -> string -> string -> string ->
    W -> Res PullData * W;
  date_now : W -> Z;
  set_timeout : Z -> W -> W
}.
Arguments repos_get {W}.
Arguments repos_getBranch {W}.
Arguments repos_createFork {W}.
Arguments git_createRef {W}.
Arguments repos_getContents {W}.
Arguments repos_createOrUpdateFile {W}.
Arguments pulls_create {W}.
Arguments date_now {W}.
Arguments set_timeout {W}.

(** The library functions the module imports: [basename] of Node's [path],
    and the two conversions it does with [Buffer]:
    [Buffer.from(s, 'base64').toString('utf8')] and
    [Buffer.from(s).toString('base64')]. *)
Record Platform := mkPlatform {
  basename : string -> string;
  base64_to_utf8 : string -> string;
  utf8_to_base64 : string -> string
}.

(** ** The monad of asynchronous computations

    A computation takes the world, and gives a value or an exception, the
    world it leaves, and the events it caused, oldest first. *)
Definition M (W A : Type) : Type := W -> Res A * W * list Event.

Definition ret {W A} (a : A) : M W A := fun w => (inl a, w, []).

Definition throw {W A} (e : exn) : M W A := fun w => (inr e, w, []).

Definition bind {W A B} (m : M W A) (f : A -> M W B) : M W B :=
  fun w =>
    match m w with
    | (inl a, w1, l1) =>
        match f a w1 with (r, w2, l2) => (r, w2, (l1 ++ l2)%list) end
    | (inr e, w1, l1) => (inr e, w1, l1)
    end.

(** [try { return await m } catch (err) { h(err) }] *)
Definition try_catch {W A} (m : M W A) (h : exn -> M W A) : M W A :=
  fun w =>
    match m w with
    | (inl a, w1, l1) => (inl a, w1, l1)
    | (inr e, w1, l1) =>
        match h e w1 with (r, w2, l2) => (r, w2, (l1 ++ l2)%list) end
    end.

Declare Scope async_scope.
Delimit Scope async_scope with async.
Notation "x <- m ;; k" := (bind m (fun x => k))
  (at level 61, m at next level, right associativity) : async_scope.
Notation "m ;;; k" := (bind m (fun _ => k))
  (at level 61, right associativity) : async_scope.

(** One awaited call of the client: the request is logged with its answer. *)
Definition call {W A} (rq : Request) (wrap : A -> Response)
    (f : W -> Res A * W) : M W A :=
  fun w =>
    match f w with
    | (inl a, w1) => (inl a, w1, [Ev rq (wrap a)])
    | (inr e, w1) => (inr e, w1, [Ev rq (Rejected e)])
    end.

Definition result {W A} (o : Res A * W * list Event) : Res A := fst (fst o).
Definition world {W A} (o : Res A * W * list Event) : W := snd (fst o).
Definition log {W A} (o : Res A * W * list Event) : list Event := snd o.

(** ** JavaScript's strings and numbers, as far as the module uses them *)

(** The line feed, and the separator ['\n\n']. *)
Definition LF : string := String "010"%char EmptyString.
Definition blank_line : string := LF ++ LF.

(** A string is truthy when it is not empty. *)
Definition truthy (s : string) : bool := negb (s =? "")%string.

(** [opt ? opt : dflt] for an optional string. *)
Definition or_else (opt : option string) (dflt : string) : string :=
  match opt with
  | Some s => if truthy s then s else dflt
  | None => dflt
  end.

(** [Math.round(ms / 1000)]: the nearest integer, a half going up.  [ms] is
    a time value, at most 8.64e15 in size, where the division and the
    rounding of doubles are exact. *)
Definition round_seconds (ms : Z) : Z := (ms + 500) / 1000.

(** An integer in a template literal: decimal digits, ["-"] in front of a
    negative one. *)
Definition string_of_Z (z : Z) : string := NilZero.string_of_int (Z.to_int z).

(** [s.startsWith(sep)], giving what follows [sep]. *)
Fixpoint strip_prefix (sep s : string) : option string :=
  match sep with
  | EmptyString => Some s
  | String a sep' =>
      match s with
      | EmptyString => None
      | String b s' => if Ascii.eqb a b then strip_prefix sep' s' else None
      end
  end.

(** The text before and the text after the first occurrence of [sep]. *)
Fixpoint cut (sep s : string) : option (string * string) :=
  match strip_prefix sep s with
  | Some rest => Some (EmptyString, rest)
  | None =>
      match s with
      | EmptyString => None
      | String c s' =>
          match cut sep s' with
          | Some (before, after) => Some (String c before, after)
          | None => None
          end
      end
  end.

(** [s.split(sep)] for a separator that is not empty: the pieces between
    the occurrences of [sep], found from left to right.  There are at most
    [length s] occurrences. *)
Fixpoint split_upto (n : nat) (sep s : string) : list string :=
  match n with
  | O => [s]
  | S n' =>
      match cut sep s with
      | Some (before, after) => before :: split_upto n' sep after
      | None => [s]
      end
  end.
Definition split (s sep : string) : list string :=
  split_upto (String.length s) sep s.

(** [parts.join(sep)] *)
Fixpoint join (parts : list string) (sep : string) : string :=
  match parts with
  | [] => ""
  | [p] => p
  | p :: rest => p ++ sep ++ join rest sep
  end.

(** [parts[0]] and [parts.slice(1)]; [split] never gives an empty array. *)
Definition first (parts : list string) : string := hd "" parts.
Definition slice1 (parts : list string) : list string := tl parts.

(** ** The module *)

Section EditGithubBlob.

Context {W : Type}.
Variable api : Env W.
Variable node : Platform.

Local Open Scope async_scope.

(** [setTimeout(..., delay)]: the computation is suspended and the world
    moves on. *)
Definition sleep (delay : Z) : M W unit :=
  fun w =>
    (inl tt, set_timeout api delay w, [Ev (SetTimeout delay) TimerFired]).

(** [Date.now()] *)
Definition now : M W Z :=
  fun w => (inl (date_now api w), w, [Ev DateNow (Clock (date_now api w))]).

(** [retry(times, delay, fn)], by recursion on the retries that are left. *)
Fixpoint retry_left {A} (left : nat) (delay : Z) (fn : M W A) : M W A :=
  try_catch fn (fun err =>
    match left with
    | S left' => sleep delay ;;; retry_left left' delay fn
    | O => throw err
    end).

Definition retry {A} (times : Z) (delay : Z) (fn : M W A) : M W A :=
  retry_left (Z.to_nat times) delay fn.

(** The two decisions of a run. *)
Definition needsFork (repoRes : ReposGetData) : bool :=
  negb (push (permissions repoRes)).

Definition needsPr (repoRes : ReposGetData) (branchRes : BranchData) : bool :=
  needsFork repoRes || protected branchRes.

(** The awaited calls, each logged under its arguments. *)
Definition api_repos_get (r : RepositoryRef) : M W ReposGetData :=
  call (ReposGet r) RepoRes (repos_get api r).
Definition api_repos_getBranch (r : RepositoryRef) (b : string)
  : M W BranchData :=
  call (ReposGetBranch r b) BranchRes (repos_getBranch api r b).
Definition api_repos_createFork (r : RepositoryRef) : M W ForkData :=
  call (ReposCreateFork r) ForkRes (repos_createFork api r).
Definition api_git_createRef (r : RepositoryRef) (ref s : string) : M W unit :=
  call (GitCreateRef r ref s) (fun _ => RefCreated) (git_createRef api r ref s).
Definition api_repos_getContents (r : RepositoryRef) (path ref : string)
  : M W ContentsData :=
  call (ReposGetContents r path ref) ContentsRes
       (repos_getContents api r path ref).
Definition api_repos_createOrUpdateFile (r : RepositoryRef)
    (path message cont s b : string) : M W CommitData :=
  call (ReposCreateOrUpdateFile r path message cont s b) CommitRes
       (repos_createOrUpdateFile api r path message cont s b).
Definition api_pulls_create (r : RepositoryRef) (base head title body : string)
  : M W PullData :=
  call (PullsCreate r base head title body) PullRes
       (pulls_create api r base head title body).

(** The exported function. *)
Definition editGithubBlob (params : Options) : M W string :=
  let baseRepo := mkRepo (params_owner params) (params_repo params) in
  let filePath := filePath params in
  repoRes <- api_repos_get baseRepo ;;
  let baseBranch := or_else (branch params) (default_branch repoRes) in
  branchRes <- api_repos_getBranch baseRepo baseBranch ;;
  let needsFork := needsFork repoRes in
  headRepo <-
    (if needsFork then
       forkRes <- api_repos_createFork baseRepo ;;
       ret (mkRepo (login (fork_owner forkRes)) (name forkRes))
     else ret baseRepo) ;;
  let needsPr := needsPr repoRes branchRes in
  headBranch <-
    (if needsPr then
       ms <- now ;;
       let timestamp := round_seconds ms in
       ret ("update-" ++ basename node filePath ++ "-" ++ string_of_Z timestamp)
     else ret baseBranch) ;;
  (if needsPr then
     retry (if needsFork then 6 else 0) 5000
       (api_git_createRef headRepo ("refs/heads/" ++ headBranch)
          (sha (commit branchRes)))
   else ret tt) ;;;
  fileRes <- api_repos_getContents headRepo filePath headBranch ;;
  match fileRes with
  | Listing _ =>
      throw
        (JsError ("expected '" ++ filePath ++ "' is a file, got a directory"))
  | File fileData =>
      let content := or_else (content fileData) "" in
      let oldContent := base64_to_utf8 node content in
      let newContent := replace params oldContent in
      if (newContent =? oldContent)%string then
        throw (JsError "no replacements ocurred")
      else
        let commitMessage :=
          or_else (commitMessage params) ("Update " ++ filePath) in
        commitRes <-
          api_repos_createOrUpdateFile headRepo filePath commitMessage
            (utf8_to_base64 node newContent) (file_sha fileData) headBranch ;;
        if needsPr then
          let parts := split commitMessage blank_line in
          let title := first parts in
          let body := join (slice1 parts) blank_line in
          prRes <-
            api_pulls_create baseRepo baseBranch
              (owner headRepo ++ ":" ++ headBranch) title body ;;
          ret (html_url prRes)
        else ret (commit_html_url commitRes)
  end.

End EditGithubBlob.

(** ** A concrete platform and a scripted client, to run the function on *)

Module Node.

(** [path.basename] on POSIX: the last segment of the path that is not
    empty. *)
Definition posix_basename (path : string) : string :=
  last (filter truthy (split path "/")) "".

Definition alphabet : string :=
  "ABCDEFGHIJKLMNOPQRSTUVWXYZabcdefghijklmnopqrstuvwxyz0123456789+/".

Definition digit (n : nat) : ascii :=
  match String.get n alphabet with Some c => c | None => "="%char end.

Fixpoint index_from (i : nat) (c : ascii) (s : string) : option nat :=
  match s with
  | EmptyString => None
  | String d s' => if Ascii.eqb c d then Some i else index_from (S i) c s'
  end.

(** Base64 of a string of bytes, with padding. *)
Fixpoint encode (s : string) : string :=
  match s with
  | EmptyString => EmptyString
  | String a EmptyString =>
      let x := nat_of_ascii a in
      String (digit (x / 4)) (String (digit (x mod 4 * 16)) "==")
  | String a (String b EmptyString) =>
      let x := nat_of_ascii a in
      let y := nat_of_ascii b in
      String (digit (x / 4)) (String (digit (x mod 4 * 16 + y / 16))
        (String (digit (y mod 16 * 4)) "="))
  | String a (String b (String c rest)) =>
      let x := nat_of_ascii a in
      let y := nat_of_ascii b in
      let z := nat_of_ascii c in
      String (digit (x / 4)) (String (digit (x mod 4 * 16 + y / 16))
        (String (digit (y mod 16 * 4 + z / 64))
          (String (digit (z mod 64)) (encode rest))))
  end%nat.

(** The six-bit digits of a base64 text, up to the padding; characters
    outside the alphabet (line breaks) are skipped. *)
Fixpoint sextets (s : string) : list nat :=
  match s with
  | EmptyString => []
  | String c s' =>
      if Ascii.eqb c "="%char then []
      else match index_from 0 c alphabet with
           | Some n => n :: sextets s'
           | None => sextets s'
           end
  end.

Fixpoint bytes_of (l : list nat) : string :=
  match l with
  | a :: b :: c :: d :: rest =>
      String (ascii_of_nat (a * 4 + b / 16))
        (String (ascii_of_nat (b mod 16 * 16 + c / 4))
          (String (ascii_of_nat (c mod 4 * 64 + d)) (bytes_of rest)))
  | [a; b; c] =>
      String (ascii_of_nat (a * 4 + b / 16))
        (String (ascii_of_nat (b mod 16 * 16 + c / 4)) EmptyString)
  | [a; b] => String (ascii_of_nat (a * 4 + b / 16)) EmptyString
  | _ => EmptyString
  end%nat.

Definition decode (s : string) : string := bytes_of (sextets s).

Definition platform : Platform := mkPlatform posix_basename decode encode.

End Node.

Module Mock.

(** What the scripted server answers: the permission and the protection it
    reports, what it has at the path, and how many times it rejects the
    creation of a ref before it accepts one. *)
Record Scenario := mkScenario {
  can_push : bool;
  is_protected : bool;
  at_path : ContentsData;
  ref_rejections : nat
}.

(** Its state: the clock, in milliseconds, and the ref creations seen. *)
Record State := mkState { clock : Z; ref_calls : nat }.

Definition url_of (r : RepositoryRef) (tail : string) : string :=
  "https://github.com/" ++ owner r ++ "/" ++ repo r ++ "/" ++ tail.

Definition repo_answer (sc : Scenario) : ReposGetData :=
  mkReposGetData "master" (mkPermissions (can_push sc)).

Definition branch_answer (sc : Scenario) : BranchData :=
  mkBranchData (is_protected sc) (mkCommitRef "c0ffee").

Definition fork_answer (r : RepositoryRef) : ForkData :=
  mkForkData (mkOwner "bot") (repo r).

Definition env (sc : Scenario) : Env State :=
  {| repos_get := fun _ w => (inl (repo_answer sc), w);
     repos_getBranch := fun _ _ w => (inl (branch_answer sc), w);
     repos_createFork := fun r w => (inl (fork_answer r), w);
     git_createRef := fun _ _ _ w =>
       let w' := mkState (clock w) (S (ref_calls w)) in
       if (ref_calls w <? ref_rejections sc)%nat
       then (inr (HttpError 404 "Not Found"), w')
       else (inl tt, w');
     repos_getContents := fun _ _ _ w => (inl (at_path sc), w);
     repos_createOrUpdateFile := fun r _ _ _ _ _ w =>
       (inl (mkCommitData (url_of r "commit/1")), w);
     pulls_create := fun r _ _ _ _ w =>
       (inl (mkPullData (url_of r "pull/1")), w);
     date_now := clock;
     set_timeout := fun delay w => mkState (clock w + delay) (ref_calls w)
  |}.

Definition start (ms : Z) : State := mkState ms 0.

(** A formula file holding [version "1.0"], and a request to bump it. *)
Definition formula : ContentsData :=
  File (mkFileData (Some (Node.encode "version 1.0")) "b10b").

Definition bump (old : string) : string :=
  if (old =? "version 1.0")%string then "version 1.1" else old.

Definition upstream : RepositoryRef := mkRepo "Homebrew" "homebrew-core".
Definition fork : RepositoryRef := mkRepo "bot" "homebrew-core".

Definition request (f : string -> string) (msg : option string) : Options :=
  mkOptions (owner upstream) (repo upstream) "Formula/hello.rb" None f msg.

Definition unchanged (old : string) : string := old.


(** The caller may push and the branch is open; the caller may push and the
    branch is protected; the caller may not push, and the fork accepts a ref
    at once, at the third attempt, or never. *)
Definition direct : Scenario := mkScenario true false formula 0.
Definition guarded : Scenario := mkScenario true true formula 0.
Definition outsider : Scenario := mkScenario false false formula 0.
Definition lagging : Scenario := mkScenario false false formula 2.
Definition stuck : Scenario := mkScenario false false formula 100.

(** The same server with a directory, and with a file that has no content,
    at the path. *)
Definition with_directory (sc : Scenario) : Scenario :=
  mkScenario (can_push sc) (is_protected sc) (Listing ["hello.rb"])
    (ref_rejections sc).
Definition with_bare_file (sc : Scenario) : Scenario :=
  mkScenario (can_push sc) (is_protected sc) (File (mkFileData None "b10b"))
    (ref_rejections sc).

Definition run (sc : Scenario) (f : string -> string) (msg : option string)
    (ms : Z) : Res string * State * list Event :=
  editGithubBlob (env sc) Node.platform (request f msg) (start ms).

End Mock.

(** ** The shape of a run

    What the log of a run can be, and the result that goes with it.  The
    names are those of the source's local variables, as functions of the
    answers they are computed from. *)

(** The events of a retried call that was rejected with [errs], one delay
    after each, before it was answered [final]. *)
Definition retry_log (rq : Request) (delay : Z) (errs : list exn)
    (final : Response) : list Event :=
  (flat_map (fun e => [Ev rq (Rejected e); Ev (SetTimeout delay) TimerFired])
     errs ++ [Ev rq final])%list.

(** The attempts to create the ref and the delays, as a log shows them. *)
Definition attempts (l : list Event) : list Event :=
  filter (fun ev => is_createRef (req ev)) l.

Definition delays (l : list Event) : list Event :=
  filter (fun ev => is_timeout (req ev)) l.

Definition fork_requested (l : list Event) : bool :=
  existsb (fun ev => is_createFork (req ev)) l.

Definition writes (l : list Event) : list Request :=
  filter is_write (map req l).

(** The events of a log whose request is of a kind. *)
Definition sent (p : Request -> bool) (l : list Event) : list Event :=
  filter (fun ev => p (req ev)) l.

(** A log in which every rejection is settled for a run of result [r]: it is
    the last event and [r] is that rejection, or it is the rejection of a
    ref creation, and a delay of 5000 milliseconds and another attempt of
    the same request follow it. *)
Fixpoint settled {A} (r : Res A) (l : list Event) : Prop :=
  match l with
  | [] => True
  | ev :: rest =>
      (forall e, resp ev = Rejected e ->
         (rest = [] /\ r = inr e) \/
         (is_createRef (req ev) = true /\
          exists ans post,
            rest = Ev (SetTimeout 5000) TimerFired :: Ev (req ev) ans :: post))
      /\ settled r rest
  end.

Section Shape.

Variable node : Platform.
Variable params : Options.

Definition baseRepo : RepositoryRef :=
  mkRepo (params_owner params) (params_repo params).

Definition baseBranch (repoRes : ReposGetData) : string :=
  or_else (branch params) (default_branch repoRes).

Definition headRepo (repoRes : ReposGetData) (forkRes : ForkData)
  : RepositoryRef :=
  if needsFork repoRes
  then mkRepo (login (fork_owner forkRes)) (name forkRes)
  else baseRepo.

Definition headBranch (repoRes : ReposGetData) (branchRes : BranchData)
    (ms : Z) : string :=
  if needsPr repoRes branchRes
  then "update-" ++ basename node (filePath params) ++ "-"
         ++ string_of_Z (round_seconds ms)
  else baseBranch repoRes.

Definition retries (repoRes : ReposGetData) : nat :=
  if needsFork repoRes then 6%nat else 0%nat.

Definition oldContent (fileData : FileData) : string :=
  base64_to_utf8 node (or_else (content fileData) "").

Definition message : string :=
  or_else (commitMessage params) ("Update " ++ filePath params).

Definition NotAFileError : exn :=
  JsError ("expected '" ++ filePath params ++ "' is a file, got a directory").

Definition NoChangeError : exn := JsError "no replacements ocurred".

(** The answers a run got up to the fetch of the content. *)
Record Answers := mkAnswers {
  repoRes : ReposGetData;
  branchRes : BranchData;
  forkRes : ForkData;
  now_ms : Z;
  rejections : list exn
}.

Definition createRef_request (a : Answers) : Request :=
  GitCreateRef (headRepo (repoRes a) (forkRes a))
    ("refs/heads/" ++ headBranch (repoRes a) (branchRes a) (now_ms a))
    (sha (commit (branchRes a))).

Definition getContents_request (a : Answers) : Request :=
  ReposGetContents (headRepo (repoRes a) (forkRes a)) (filePath params)
    (headBranch (repoRes a) (branchRes a) (now_ms a)).

Definition commit_request (a : Answers) (fileData : FileData) : Request :=
  ReposCreateOrUpdateFile (headRepo (repoRes a) (forkRes a)) (filePath params)
    message (utf8_to_base64 node (replace params (oldContent fileData)))
    (file_sha fileData) (headBranch (repoRes a) (branchRes a) (now_ms a)).

Definition pull_request (a : Answers) : Request :=
  PullsCreate baseRepo (baseBranch (repoRes a))
    (owner (headRepo (repoRes a) (forkRes a)) ++ ":"
       ++ headBranch (repoRes a) (branchRes a) (now_ms a))
    (first (split message blank_line))
    (join (slice1 (split message blank_line)) blank_line).

(** Steps 1 and 2: the repository and the branch were resolved. *)
Definition resolved (a : Answers) : list Event :=
  [Ev (ReposGet baseRepo) (RepoRes (repoRes a));
   Ev (ReposGetBranch baseRepo (baseBranch (repoRes a)))
      (BranchRes (branchRes a))].

(** Step 3: the fork, when one is needed. *)
Definition forked (a : Answers) : list Event :=
  if needsFork (repoRes a)
  then [Ev (ReposCreateFork baseRepo) (ForkRes (forkRes a))]
  else [].

(** Step 4: the clock is read when a pull request is needed. *)
Definition named (a : Answers) : list Event :=
  if needsPr (repoRes a) (branchRes a)
  then [Ev DateNow (Clock (now_ms a))]
  else [].

(** Step 5: the ref, when a pull request is needed. *)
Definition branched (a : Answers) : list Event :=
  if needsPr (repoRes a) (branchRes a)
  then retry_log (createRef_request a) 5000 (rejections a) RefCreated
  else [].

Definition prepared (a : Answers) : list Event :=
  (resolved a ++ forked a ++ named a ++ branched a)%list.

Definition fetched (a : Answers) (d : ContentsData) : list Event :=
  (prepared a ++ [Ev (getContents_request a) (ContentsRes d)])%list.

Definition committed (a : Answers) (fileData : FileData) (c : CommitData)
  : list Event :=
  (fetched a (File fileData)
     ++ [Ev (commit_request a fileData) (CommitRes c)])%list.

Inductive Outcome : list Event -> Res string -> Prop :=
| repo_rejected e :
    Outcome [Ev (ReposGet baseRepo) (Rejected e)] (inr e)
| branch_rejected rd e :
    Outcome [Ev (ReposGet baseRepo) (RepoRes rd);
             Ev (ReposGetBranch baseRepo (baseBranch rd)) (Rejected e)]
            (inr e)
| fork_rejected a e :
    needsFork (repoRes a) = true ->
    Outcome (resolved a ++ [Ev (ReposCreateFork baseRepo) (Rejected e)])
            (inr e)
| ref_rejected a e :
    needsPr (repoRes a) (branchRes a) = true ->
    List.length (rejections a) = retries (repoRes a) ->
    Outcome (resolved a ++ forked a ++ named a
               ++ retry_log (createRef_request a) 5000 (rejections a)
                    (Rejected e))
            (inr e)
| contents_rejected a e :
    (List.length (rejections a) <= retries (repoRes a))%nat ->
    Outcome (prepared a ++ [Ev (getContents_request a) (Rejected e)])
            (inr e)
| is_directory a entries :
    (List.length (rejections a) <= retries (repoRes a))%nat ->
    Outcome (fetched a (Listing entries)) (inr NotAFileError)
| no_change a fd :
    (List.length (rejections a) <= retries (repoRes a))%nat ->
    replace params (oldContent fd) = oldContent fd ->
    Outcome (fetched a (File fd)) (inr NoChangeError)
| commit_rejected a fd e :
    (List.length (rejections a) <= retries (repoRes a))%nat ->
    replace params (oldContent fd) <> oldContent fd ->
    Outcome (fetched a (File fd) ++ [Ev (commit_request a fd) (Rejected e)])
            (inr e)
| pushed a fd c :
    (List.length (rejections a) <= retries (repoRes a))%nat ->
    replace params (oldContent fd) <> oldContent fd ->
    needsPr (repoRes a) (branchRes a) = false ->
    Outcome (committed a fd c) (inl (commit_html_url c))
| pull_rejected a fd c e :
    (List.length (rejections a) <= retries (repoRes a))%nat ->
    replace params (oldContent fd) <> oldContent fd ->
    needsPr (repoRes a) (branchRes a) = true ->
    Outcome (committed a fd c ++ [Ev (pull_request a) (Rejected e)]) (inr e)
| pull_opened a fd c pr :
    (List.length (rejections a) <= retries (repoRes a))%nat ->
    replace params (oldContent fd) <> oldContent fd ->
    needsPr (repoRes a) (branchRes a) = true ->
    Outcome (committed a fd c ++ [Ev (pull_request a) (PullRes pr)])
            (inl (html_url pr)).

End Shape.

(** ** Properties *)

Section RetryFacts.

Context {W : Type}.
Variable api : Env W.

(** [retry] as the source has it, with the test [times > 0] on the number. *)
Lemma retry_eqn {A} (times delay : Z) (fn : M W A) (w : W) :
  retry api times delay fn w =
  try_catch fn (fun err =>
    if 0 <? times
    then bind (sleep api delay) (fun _ => retry api (times - 1) delay fn)
    else throw err) w.
Proof.
  unfold retry.
  destruct (Z.ltb_spec 0 times) as [Hpos | Hneg].
  - replace (Z.to_nat times) with (S (Z.to_nat (times - 1))) by lia.
    reflexivity.
  - replace (Z.to_nat times) with O by lia.
    reflexivity.
Qed.

Lemma retry_left_O {A} (delay : Z) (fn : M W A) (w : W) :
  retry_left api 0 delay fn w = fn w.
Proof.
  simpl. unfold try_catch, throw.
  destruct (fn w) as [[[a | e] w1] l1]; [reflexivity |].
  rewrite app_nil_r. reflexivity.
Qed.

Lemma retry_left_S {A} (n : nat) (delay : Z) (fn : M W A) (w : W) :
  retry_left api (S n) delay fn w =
  match fn w with
  | (inl a, w1, l1) => (inl a, w1, l1)
  | (inr e, w1, l1) =>
      match retry_left api n delay fn (set_timeout api delay w1) with
      | (r, w2, l2) =>
          (r, w2, (l1 ++ Ev (SetTimeout delay) TimerFired :: l2)%list)
      end
  end.
Proof.
  simpl. unfold try_catch, bind, sleep.
  destruct (fn w) as [[[a | e] w1] l1]; [reflexivity |].
  destruct (retry_left api n delay fn (set_timeout api delay w1))
    as [[r w2] l2].
  reflexivity.
Qed.

Lemma call_eqn {A} (rq : Request) (wrap : A -> Response)
    (f : W -> Res A * W) (w : W) :
  call rq wrap f w =
  match f w with
  | (inl a, w1) => (inl a, w1, [Ev rq (wrap a)])
  | (inr e, w1) => (inr e, w1, [Ev rq (Rejected e)])
  end.
Proof. reflexivity. Qed.

(** A retried call: it was rejected some times, at most [n], with a delay
    after each rejection, and then it was answered; or it was rejected
    [n + 1] times, with a delay after each rejection but the last, and the
    last rejection is the result. *)
Lemma retry_call_inv {A} (rq : Request) (wrap : A -> Response)
    (f : W -> Res A * W) (delay : Z) :
  forall (n : nat) (w w' : W) (r : Res A) (l : list Event),
    retry_left api n delay (call rq wrap f) w = (r, w', l) ->
    exists errs : list exn,
      (List.length errs <= n)%nat /\
      ((exists a, r = inl a /\ l = retry_log rq delay errs (wrap a)) \/
       (exists e, r = inr e /\ List.length errs = n /\
                  l = retry_log rq delay errs (Rejected e))).
Proof.
  induction n as [| n IH]; intros w w' r l Hrun.
  - rewrite retry_left_O, call_eqn in Hrun.
    exists []. split; [simpl; lia |].
    destruct (f w) as [[a | e] w1]; inversion Hrun; subst.
    + left. exists a. split; reflexivity.
    + right. exists e. repeat split; reflexivity.
  - rewrite retry_left_S, call_eqn in Hrun.
    destruct (f w) as [[a | e] w1].
    + inversion Hrun; subst. exists []. split; [simpl; lia |].
      left. exists a. split; reflexivity.
    + destruct (retry_left api n delay (call rq wrap f)
                  (set_timeout api delay w1)) as [[r2 w2] l2] eqn:Hrec.
      apply IH in Hrec. destruct Hrec as [errs [Hlen Hcases]].
      inversion Hrun; subst. exists (e :: errs). split; [simpl; lia |].
      destruct Hcases as [[a [Hr Hl]] | [e' [Hr [Hn Hl]]]]; subst.
      * left. exists a. split; reflexivity.
      * right. exists e'. repeat split; reflexivity.
Qed.

End RetryFacts.

Section MonadFacts.
Context {W : Type}.
Variable api : Env W.

Lemma bind_ret {A B} (a : A) (k : A -> M W B) (w : W) :
  bind (ret a) k w = k a w.
Proof. unfold bind, ret. destruct (k a w) as [[r w2] l2]. reflexivity. Qed.

Lemma bind_assoc {A B C} (m : M W A) (f : A -> M W B) (k : B -> M W C)
    (w : W) :
  bind (bind m f) k w = bind m (fun a => bind (f a) k) w.
Proof.
  unfold bind.
  destruct (m w) as [[[a | e] w1] l1]; [| reflexivity].
  destruct (f a w1) as [[[b | e] w2] l2]; [| reflexivity].
  destruct (k b w2) as [[r w3] l3].
  rewrite app_assoc. reflexivity.
Qed.

Lemma bind_call {A B} (rq : Request) (wrap : A -> Response)
    (f : W -> Res A * W) (k : A -> M W B) (w : W) :
  bind (call rq wrap f) k w =
  match f w with
  | (inl a, w1) =>
      match k a w1 with (r, w2, l2) => (r, w2, Ev rq (wrap a) :: l2) end
  | (inr e, w1) => (inr e, w1, [Ev rq (Rejected e)])
  end.
Proof.
  unfold bind, call. destruct (f w) as [[a | e] w1]; reflexivity.
Qed.

Lemma bind_now {B} (k : Z -> M W B) (w : W) :
  bind (now api) k w =
  match k (date_now api w) w with
  | (r, w2, l2) => (r, w2, Ev DateNow (Clock (date_now api w)) :: l2)
  end.
Proof. reflexivity. Qed.

End MonadFacts.

(** *** Every run has a shape

    The run is followed call by call; at each call the answer is either a
    value, and the run goes on, or a rejection, and the run ends. *)

Lemma outcome_eq (node : Platform) (params : Options) l r l' r' :
  Outcome node params l r -> l = l' -> r = r' -> Outcome node params l' r'.
Proof. intros H -> ->. exact H. Qed.

(** One step of a run whose equation is [H], forward. *)
Ltac rest_of_run H :=
  match type of H with
  | (let (_, _) := ?X in _) = _ =>
      let r := fresh "r" in let w' := fresh "w" in let l := fresh "l" in
      let E := fresh "Hrest" in
      destruct X as [[r w'] l] eqn:E;
      inversion H; subst; clear H; rename E into H
  | context [@ret ?W ?A ?a ?w] =>
      unfold ret in H; inversion H; subst; clear H
  | context [@throw ?W ?A ?a ?w] =>
      unfold throw in H; inversion H; subst; clear H
  end.

Ltac run_step api H :=
  lazymatch type of H with
  | bind (bind _ _) _ _ = _ => rewrite bind_assoc in H
  | bind (ret _) _ _ = _ => rewrite bind_ret in H
  | bind (call _ _ ?f) _ ?w = _ =>
      rewrite bind_call in H;
      let a := fresh "a" in let e := fresh "e" in let w' := fresh "w" in
      destruct (f w) as [[a | e] w'];
      [ rest_of_run H | inversion H; subst; clear H ]
  | bind (now _) _ ?w = _ =>
      rewrite bind_now in H;
      let ms := fresh "ms" in
      set (ms := date_now api w) in H;
      rest_of_run H
  | bind (retry _ ?t ?d (api_git_createRef _ ?hr ?ref ?s)) ?k ?w = _ =>
      unfold bind at 1 in H;
      let Hretry := fresh "Hretry" in
      let ru := fresh "ru" in let w' := fresh "w" in let l := fresh "l" in
      destruct (retry api t d (api_git_createRef api hr ref s) w)
        as [[ru w'] l] eqn:Hretry;
      unfold retry, api_git_createRef in Hretry;
      apply retry_call_inv in Hretry;
      let errs := fresh "errs" in
      let Hlen := fresh "Hlen" in let Hr := fresh "Hr" in
      let Hn := fresh "Hn" in let Hl := fresh "Hl" in
      destruct Hretry as [errs [Hlen [[? [Hr Hl]] | [? [Hr [Hn Hl]]]]]];
      [ subst ru l; rest_of_run H
      | subst ru l; inversion H; subst; clear H ]
  | match ?d with Listing _ => _ | File _ => _ end _ = _ =>
      let entries := fresh "entries" in let fd := fresh "fd" in
      destruct d as [entries | fd]
  | (if (?x =? ?y)%string then _ else _) _ = _ =>
      destruct (String.eqb_spec x y)
  | _ => rest_of_run H
  end.

Ltac use_flags :=
  repeat match goal with
         | H : push (permissions _) = _ |- _ => rewrite H
         | H : protected _ = _ |- _ => rewrite H
         end.

Ltac unfold_shape :=
  unfold committed, fetched, prepared, resolved, forked, named, branched,
    createRef_request, getContents_request, commit_request, pull_request,
    headRepo, headBranch, baseRepo, baseBranch, message, oldContent,
    NotAFileError, NoChangeError, retries, needsPr, needsFork;
  cbn [repoRes branchRes forkRes now_ms rejections];
  use_flags; cbn [negb orb].

Ltac same_log :=
  unfold_shape; rewrite <- ?app_assoc; simpl; reflexivity.

Ltac side_condition :=
  unfold_shape;
  first [ assumption | reflexivity | simpl; lia | simpl in *; lia ].

Ltac pick_fork :=
  match goal with
  | fk : ForkData |- _ => constr:(fk)
  | _ => constr:(mkForkData (mkOwner "") "")
  end.
Ltac pick_now :=
  match goal with
  | t := _ : Z |- _ => constr:(t)
  | _ => constr:(0)
  end.
Ltac pick_rejections :=
  match goal with
  | es : list exn |- _ => constr:(es)
  | _ => constr:(@nil exn)
  end.

Ltac by_shape node params rd bd :=
  let fk := pick_fork in
  let t := pick_now in
  let es := pick_rejections in
  let a := constr:(mkAnswers rd bd fk t es) in
  let try_with c :=
    solve [ eapply outcome_eq; [ eapply c | | ];
            [> idtac .. | same_log | unfold_shape; reflexivity ];
            side_condition ] in
  first
    [ try_with (fork_rejected node params a)
    | try_with (ref_rejected node params a)
    | try_with (contents_rejected node params a)
    | try_with (is_directory node params a)
    | try_with (no_change node params a)
    | try_with (commit_rejected node params a)
    | try_with (pushed node params a)
    | try_with (pull_rejected node params a)
    | try_with (pull_opened node params a) ].

(** Every run has one of the shapes of [Outcome]. *)
Lemma run_outcome {W} (api : Env W) (node : Platform) (params : Options)
    (w : W) :
  Outcome node params (log (editGithubBlob api node params w))
    (result (editGithubBlob api node params w)).
Proof.
  destruct (editGithubBlob api node params w) as [[r wf] l] eqn:Hrun.
  unfold log, result; simpl.
  unfold editGithubBlob, api_repos_get, api_repos_getBranch,
    api_repos_createFork, api_repos_getContents,
    api_repos_createOrUpdateFile, api_pulls_create in Hrun.
  run_step api Hrun; [| apply repo_rejected ].
  run_step api Hrun; [| apply branch_rejected ].
  rename a into rd, a0 into bd.
  unfold needsPr, needsFork in Hrun.
  destruct (push (permissions rd)) eqn:Hpush;
    destruct (protected bd) eqn:Hprot; cbn [negb orb] in Hrun;
    repeat run_step api Hrun.
  all: by_shape node params rd bd.
Qed.

(** *** Membership in a log *)

Lemma in_retry_log (rq : Request) (delay : Z) (es : list exn)
    (final : Response) (ev : Event) :
  In ev (retry_log rq delay es final) ->
  (exists e, ev = Ev rq (Rejected e)) \/
  ev = Ev (SetTimeout delay) TimerFired \/
  ev = Ev rq final.
Proof.
  unfold retry_log. rewrite in_app_iff, in_flat_map.
  intros [[e [_ [H | [H | []]]]] | [H | []]]; subst; eauto.
Qed.

Lemma retry_log_final (rq : Request) (delay : Z) (es : list exn)
    (final : Response) :
  In (Ev rq final) (retry_log rq delay es final).
Proof. unfold retry_log. apply in_or_app. right. left. reflexivity. Qed.

Lemma attempts_app (l1 l2 : list Event) :
  attempts (l1 ++ l2) = (attempts l1 ++ attempts l2)%list.
Proof. apply filter_app. Qed.

Lemma delays_app (l1 l2 : list Event) :
  delays (l1 ++ l2) = (delays l1 ++ delays l2)%list.
Proof. apply filter_app. Qed.

Lemma attempts_retry_log (rq : Request) (delay : Z) (es : list exn)
    (final : Response) :
  is_createRef rq = true ->
  attempts (retry_log rq delay es final) =
  (map (fun e => Ev rq (Rejected e)) es ++ [Ev rq final])%list.
Proof.
  intros Hrq. unfold retry_log, attempts.
  induction es as [| e es IH]; simpl; rewrite Hrq; [reflexivity |].
  f_equal. exact IH.
Qed.

Lemma delays_retry_log (rq : Request) (delay : Z) (es : list exn)
    (final : Response) :
  is_timeout rq = false ->
  delays (retry_log rq delay es final) =
  repeat (Ev (SetTimeout delay) TimerFired) (List.length es).
Proof.
  intros Hrq. unfold retry_log, delays.
  induction es as [| e es IH]; simpl; rewrite Hrq; [reflexivity |].
  f_equal. exact IH.
Qed.

(** *** Reading a log

    The cases of a run, with the two flags of each case decided. *)
Ltac run_cases api node params w :=
  generalize (run_outcome api node params w);
  generalize (result (editGithubBlob api node params w));
  generalize (log (editGithubBlob api node params w));
  let l := fresh "l" in let r := fresh "r" in let Hshape := fresh "Hshape" in
  intros l r Hshape; destruct Hshape;
  repeat match goal with
         | a : Answers |- _ =>
             let rd := fresh "rd" in let bd := fresh "bd" in
             let fk := fresh "fk" in let t := fresh "t" in
             let es := fresh "es" in
             destruct a as [rd bd fk t es];
             cbn [repoRes branchRes forkRes now_ms rejections] in *;
             let Hpush := fresh "Hpush" in let Hprot := fresh "Hprot" in
             destruct (push (permissions rd)) eqn:Hpush;
             destruct (protected bd) eqn:Hprot
         end.

Ltac unfold_shape_all :=
  unfold committed, fetched, prepared, resolved, forked, named, branched,
    createRef_request, getContents_request, commit_request, pull_request,
    headRepo, headBranch, retries, needsPr, needsFork in *;
  cbn [repoRes branchRes forkRes now_ms rejections] in *;
  repeat match goal with
         | H : push (permissions _) = _ |- _ => rewrite H in *
         | H : protected _ = _ |- _ => rewrite H in *
         end;
  cbn [negb orb app] in *;
  try match goal with
      | H : true = false |- _ => discriminate H
      | H : false = true |- _ => discriminate H
      end.

(** The events a membership in a log can stand for. *)
Ltac split_in H :=
  repeat match type of H with
         | In _ (_ :: _) => destruct H as [H | H]
         | In _ [] => destruct H
         | In _ (_ ++ _) => apply in_app_or in H; destruct H as [H | H]
         | In _ (retry_log _ _ _ _) =>
             apply in_retry_log in H; destruct H as [[? H] | [H | H]]
         end.

Ltac use_in H := split_in H; inversion H; clear H; subst.

(** *** Strings *)

Lemma strip_prefix_some (sep s rest : string) :
  strip_prefix sep s = Some rest <-> s = sep ++ rest.
Proof.
  revert s. induction sep as [| a sep IH]; intros s; simpl.
  - split; [intros [= ->] | intros ->]; reflexivity.
  - destruct s as [| b s]; [split; discriminate |].
    destruct (Ascii.eqb_spec a b) as [-> | Hne].
    + rewrite IH. split; [intros -> | intros [= ->]]; reflexivity.
    + split; [discriminate | intros [= Hab _]; congruence].
Qed.

(** [cut] finds the first occurrence of the separator. *)
Lemma cut_some (sep s before after : string) :
  cut sep s = Some (before, after) ->
  s = before ++ sep ++ after /\
  forall a b, s = a ++ sep ++ b ->
              (String.length before <= String.length a)%nat.
Proof.
  revert before. induction s as [| c s IH]; intros before; simpl.
  - destruct (strip_prefix sep "") as [rest |] eqn:Hp; [| discriminate].
    intros [= <- <-]. apply strip_prefix_some in Hp.
    split; [exact Hp | simpl; lia].
  - destruct (strip_prefix sep (String c s)) as [rest |] eqn:Hp.
    + intros [= <- <-]. apply strip_prefix_some in Hp.
      split; [exact Hp | simpl; lia].
    + destruct (cut sep s) as [[b0 a0] |] eqn:Hc; [| discriminate].
      intros [= <- <-]. destruct (IH b0 eq_refl) as [Hs Hmin].
      split; [simpl; congruence |].
      intros a b Hab. destruct a as [| c' a]; simpl in Hab.
      * apply strip_prefix_some in Hab. congruence.
      * injection Hab as _ Hab. apply Hmin in Hab. simpl. lia.
Qed.

Lemma cut_none (sep s : string) :
  cut sep s = None -> forall a b, s <> a ++ sep ++ b.
Proof.
  induction s as [| c s IH]; simpl.
  - destruct (strip_prefix sep "") as [rest |] eqn:Hp; [discriminate |].
    intros _ a b Hab. destruct a; simpl in Hab.
    + apply strip_prefix_some in Hab. congruence.
    + discriminate.
  - destruct (strip_prefix sep (String c s)) as [rest |] eqn:Hp;
      [discriminate |].
    destruct (cut sep s) as [[b0 a0] |] eqn:Hc; [discriminate |].
    intros _ a b Hab. destruct a as [| c' a]; simpl in Hab.
    + apply strip_prefix_some in Hab. congruence.
    + injection Hab as _ Hab. exact (IH eq_refl a b Hab).
Qed.

Lemma split_upto_not_nil (n : nat) (sep s : string) :
  split_upto n sep s <> [].
Proof.
  destruct n; simpl; [discriminate |].
  destruct (cut sep s) as [[a b] |]; discriminate.
Qed.

Lemma join_cons (p : string) (rest : list string) (sep : string) :
  rest <> [] -> join (p :: rest) sep = p ++ sep ++ join rest sep.
Proof. destruct rest; [congruence | reflexivity]. Qed.

(** Joining the pieces with the separator gives the string back. *)
Lemma join_split_upto (n : nat) (sep : string) :
  forall s, join (split_upto n sep s) sep = s.
Proof.
  induction n as [| n IH]; intros s; simpl; [reflexivity |].
  destruct (cut sep s) as [[a b] |] eqn:Hc; [| reflexivity].
  rewrite join_cons by apply split_upto_not_nil.
  rewrite IH. symmetry. exact (proj1 (cut_some _ _ _ _ Hc)).
Qed.

Lemma length_append (a b : string) :
  String.length (a ++ b) = (String.length a + String.length b)%nat.
Proof. induction a; simpl; congruence. Qed.

Lemma append_inj_l (a b c : string) : a ++ b = a ++ c -> b = c.
Proof. induction a as [| ch a IH]; simpl; [auto | intros [= H]; auto]. Qed.

(** The title and the body that [split], [parts[0]] and
    [parts.slice(1).join] make of a message: the message itself and nothing
    when it has no blank line, and what is before and what is after its
    first blank line when it has one. *)
Lemma title_body_spec (msg : string) :
  let title := first (split msg blank_line) in
  let body := join (slice1 (split msg blank_line)) blank_line in
  ((forall a b, msg <> a ++ blank_line ++ b) /\ title = msg /\ body = "") \/
  (msg = title ++ blank_line ++ body /\
   forall a b, msg = a ++ blank_line ++ b ->
               (String.length title <= String.length a)%nat).
Proof.
  unfold split. cbv zeta.
  destruct (cut blank_line msg) as [[a b] |] eqn:Hc.
  - right. destruct (cut_some _ _ _ _ Hc) as [Hmsg Hmin].
    assert (Hlen : exists n, String.length msg = S n).
    { rewrite Hmsg, !length_append. simpl.
      exists (String.length a + S (String.length b))%nat. lia. }
    destruct Hlen as [n ->]. simpl. rewrite Hc. simpl.
    rewrite join_split_upto. split; assumption.
  - left. split; [exact (cut_none _ _ Hc) |].
    destruct (String.length msg); simpl; [| rewrite Hc]; split; reflexivity.
Qed.

Lemma append_assoc (a b c : string) : (a ++ b) ++ c = a ++ b ++ c.
Proof. induction a; simpl; congruence. Qed.

(** The text before the first occurrence has no occurrence. *)
Lemma cut_before (sep s before after : string) :
  sep <> "" -> cut sep s = Some (before, after) -> cut sep before = None.
Proof.
  intros Hsep Hcut. destruct (cut_some _ _ _ _ Hcut) as [Hs Hmin].
  destruct (cut sep before) as [[a1 a2] |] eqn:Hinner; [| reflexivity].
  exfalso. destruct (cut_some _ _ _ _ Hinner) as [Hb _].
  specialize (Hmin a1 (a2 ++ sep ++ after)).
  rewrite Hs, Hb, !append_assoc in Hmin. specialize (Hmin eq_refl).
  rewrite !length_append in Hmin.
  destruct sep; [congruence | simpl in Hmin; lia].
Qed.

(** [split] has fuel enough: no piece has an occurrence left. *)
Lemma split_upto_complete (sep : string) :
  sep <> "" ->
  forall n s, (String.length s <= n)%nat ->
              Forall (fun p => cut sep p = None) (split_upto n sep s).
Proof.
  intros Hsep. induction n as [| n IH]; intros s Hlen; simpl.
  - constructor; [| constructor].
    destruct s; [| simpl in Hlen; lia].
    destruct sep; [congruence | reflexivity].
  - destruct (cut sep s) as [[a b] |] eqn:Hcut.
    + constructor; [exact (cut_before _ _ _ _ Hsep Hcut) |].
      apply IH. destruct (cut_some _ _ _ _ Hcut) as [Hs _].
      rewrite Hs, !length_append in Hlen.
      destruct sep; [congruence | simpl in Hlen; lia].
    + constructor; [exact Hcut | constructor].
Qed.

(** *** Numbers *)

Lemma to_int_proper (z : Z) :
  Z.to_int z <> Decimal.Pos Decimal.Nil /\
  Z.to_int z <> Decimal.Neg Decimal.Nil.
Proof.
  destruct z as [| p | p]; simpl; split; try discriminate;
    intros [= H]; exact (DecimalPos.Unsigned.to_uint_nonnil p H).
Qed.

(** Two integers that print the same are the same. *)
Lemma string_of_Z_inj (x y : Z) : string_of_Z x = string_of_Z y -> x = y.
Proof.
  unfold string_of_Z. intros H.
  apply (f_equal NilZero.int_of_string) in H.
  destruct (to_int_proper x) as [Hx1 Hx2].
  destruct (to_int_proper y) as [Hy1 Hy2].
  rewrite !NilZero.isi in H by assumption.
  injection H as H.
  rewrite <- (DecimalZ.of_to x), <- (DecimalZ.of_to y), H. reflexivity.
Qed.

(** *** The helpers on examples *)

Example split_keeps_every_piece :
  split ("a" ++ blank_line ++ "b" ++ blank_line ++ LF ++ "c") blank_line
  = ["a"; "b"; LF ++ "c"].
Proof. reflexivity. Qed.

Example split_of_the_empty_string : split "" blank_line = [""].
Proof. reflexivity. Qed.

Example split_at_the_end : split ("a" ++ blank_line) blank_line = ["a"; ""].
Proof. reflexivity. Qed.

Example round_seconds_down : round_seconds 1573334000499 = 1573334000.
Proof. reflexivity. Qed.

Example round_seconds_up : round_seconds 1573334000500 = 1573334001.
Proof. reflexivity. Qed.

Example string_of_Z_examples :
  string_of_Z 1573334000 = "1573334000" /\ string_of_Z 0 = "0" /\
  string_of_Z (-5) = "-5".
Proof. repeat split; reflexivity. Qed.

Example or_else_examples :
  or_else None "master" = "master" /\ or_else (Some "") "master" = "master" /\
  or_else (Some "dev") "master" = "dev".
Proof. repeat split; reflexivity. Qed.

Example basename_examples :
  Node.posix_basename "Formula/hello.rb" = "hello.rb" /\
  Node.posix_basename "hello.rb" = "hello.rb" /\
  Node.posix_basename "Formula/" = "Formula".
Proof. repeat split; reflexivity. Qed.

Example base64_examples :
  Node.encode "version 1.0" = "dmVyc2lvbiAxLjA=" /\
  Node.decode "dmVyc2lvbiAxLjA=" = "version 1.0" /\
  Node.decode "" = "".
Proof. repeat split; reflexivity. Qed.

(** *** Counting in a log *)

Lemma attempts_cons (ev : Event) (l : list Event) :
  attempts (ev :: l) =
  if is_createRef (req ev) then ev :: attempts l else attempts l.
Proof. reflexivity. Qed.

Lemma delays_cons (ev : Event) (l : list Event) :
  delays (ev :: l) =
  if is_timeout (req ev) then ev :: delays l else delays l.
Proof. reflexivity. Qed.

Lemma fork_requested_cons (ev : Event) (l : list Event) :
  fork_requested (ev :: l) = is_createFork (req ev) || fork_requested l.
Proof. reflexivity. Qed.

Lemma fork_requested_app (l1 l2 : list Event) :
  fork_requested (l1 ++ l2) = fork_requested l1 || fork_requested l2.
Proof. apply existsb_app. Qed.

Lemma fork_requested_retry_log (rq : Request) (delay : Z) (es : list exn)
    (final : Response) :
  is_createFork rq = false ->
  fork_requested (retry_log rq delay es final) = false.
Proof.
  intros Hrq. unfold retry_log, fork_requested.
  induction es as [| e es IH]; simpl; rewrite Hrq; [reflexivity |].
  exact IH.
Qed.

Lemma attempts_nil : attempts [] = [].
Proof. reflexivity. Qed.

Lemma delays_nil : delays [] = [].
Proof. reflexivity. Qed.

Lemma fork_requested_nil : fork_requested [] = false.
Proof. reflexivity. Qed.

(** The attempts, the delays and the fork request of a log of a known
    shape. *)
Ltac count_log :=
  repeat (progress (
    rewrite ?attempts_cons, ?delays_cons, ?fork_requested_cons,
      ?attempts_app, ?delays_app, ?fork_requested_app,
      ?attempts_nil, ?delays_nil, ?fork_requested_nil, ?app_nil_r;
    rewrite ?attempts_retry_log, ?delays_retry_log,
      ?fork_requested_retry_log by reflexivity;
    cbn [req is_createRef is_timeout is_createFork orb app])).

(** A membership in a log that one of its events settles. *)
Ltac find_in :=
  lazymatch goal with
  | |- In _ (_ :: _) => first [left; reflexivity | right; find_in]
  | |- In _ (_ ++ _) =>
      apply in_or_app; first [left; find_in | right; find_in]
  | |- In _ (retry_log _ _ _ _) => apply retry_log_final
  end.

(** ** The claims *)

Section Claims.

Context {W : Type}.
Variables (api : Env W) (node : Platform) (params : Options) (w : W).

(** C1, as the code has it.  A run that fetched a file on which [replace]
    changes nothing fails with the error "no replacements ocurred", and does
    so before any commit of the file and before any pull request.  When the
    run needs no pull request (the credential may push and the branch is not
    protected) it has written nothing at all; when it needs one, the head
    ref has been created by then, and so has the fork when the credential
    may not push. *)
Theorem no_change_guard (hr : RepositoryRef) (path ref : string)
    (fd : FileData) :
  In (Ev (ReposGetContents hr path ref) (ContentsRes (File fd)))
     (log (editGithubBlob api node params w)) ->
  replace params (oldContent node fd) = oldContent node fd ->
  result (editGithubBlob api node params w) = inr NoChangeError /\
  (forall ev, In ev (log (editGithubBlob api node params w)) ->
     is_commit (req ev) = false /\ is_pull (req ev) = false) /\
  (forall rd bd,
     In (Ev (ReposGet (baseRepo params)) (RepoRes rd))
        (log (editGithubBlob api node params w)) ->
     In (Ev (ReposGetBranch (baseRepo params) (baseBranch params rd))
            (BranchRes bd))
        (log (editGithubBlob api node params w)) ->
     if needsPr rd bd
     then (exists r rf s,
             In (Ev (GitCreateRef r rf s) RefCreated)
                (log (editGithubBlob api node params w))) /\
          (needsFork rd = true ->
           exists fk,
             In (Ev (ReposCreateFork (baseRepo params)) (ForkRes fk))
                (log (editGithubBlob api node params w)))
     else writes (log (editGithubBlob api node params w)) = []).
Proof.
  run_cases api node params w.
  all: unfold_shape_all.
  all: intros Hfile Hsame.
  all: use_in Hfile.
  all: try congruence.
  all: repeat split.
  all: intros.
  all: repeat match goal with H : In _ _ |- _ => use_in H end.
  all: try solve [reflexivity | discriminate].
  all: unfold_shape_all.
  all: try reflexivity.
  all: repeat split; intros; try discriminate.
  all: try solve [do 3 eexists; find_in | eexists; find_in].
Qed.

(** The creation of the ref in a log: it was not attempted; or it was
    rejected some times, no more than the retries allowed, and then
    accepted, and the run went on to fetch the content; or it was rejected
    once more than the retries allowed, and the last rejection is the
    result.  Six retries are allowed when a fork was requested, none
    otherwise, and every delay is of 5000 milliseconds, one after each
    rejection that a retry follows. *)
Lemma retry_structure :
  let l := log (editGithubBlob api node params w) in
  let allowed := if fork_requested l then 6%nat else 0%nat in
  (attempts l = [] /\ delays l = []) \/
  (exists rq es,
     (List.length es <= allowed)%nat /\
     attempts l
     = (map (fun e => Ev rq (Rejected e)) es ++ [Ev rq RefCreated])%list /\
     delays l = repeat (Ev (SetTimeout 5000) TimerFired) (List.length es) /\
     exists hr path ref ans, In (Ev (ReposGetContents hr path ref) ans) l) \/
  (exists rq es e,
     List.length es = allowed /\
     attempts l
     = (map (fun e => Ev rq (Rejected e)) es ++ [Ev rq (Rejected e)])%list /\
     delays l = repeat (Ev (SetTimeout 5000) TimerFired) (List.length es) /\
     result (editGithubBlob api node params w) = inr e).
Proof.
  cbv zeta.
  run_cases api node params w.
  all: unfold_shape_all; count_log.
  all: try solve [left; split; reflexivity].
  all: try solve
    [ right; left; do 2 eexists;
      split; [eassumption |];
      split; [reflexivity |];
      split; [reflexivity |];
      do 4 eexists; find_in ].
  all: right; right; do 3 eexists.
  all: split; [eassumption |].
  all: split; [reflexivity |].
  all: split; reflexivity.
Qed.

(** C2.  The creation of the ref is retried with a delay of 5000
    milliseconds before each retry: up to six retries when a fork was
    requested, none (one attempt only) when none was.  When the third
    attempt is the first to succeed, there were two delays and the run went
    on to fetch the content.  When no attempt succeeds, a run with a fork
    made seven attempts, six of them retries, with six delays, and fails
    with the last rejection; a run without a fork made one attempt, and
    fails with its rejection. *)
Theorem ref_creation_retries :
  let l := log (editGithubBlob api node params w) in
  let r := result (editGithubBlob api node params w) in
  let pause := Ev (SetTimeout 5000) TimerFired in
  (forall ev, In ev (delays l) -> ev = pause) /\
  (fork_requested l = true ->
   (List.length (attempts l) <= 1 + 6)%nat /\
   delays l = repeat pause (List.length (attempts l) - 1)) /\
  (fork_requested l = false ->
   (List.length (attempts l) <= 1)%nat /\ delays l = []) /\
  (forall rq e1 e2,
     attempts l
     = [Ev rq (Rejected e1); Ev rq (Rejected e2); Ev rq RefCreated] ->
     delays l = [pause; pause] /\
     exists hr path ref ans, In (Ev (ReposGetContents hr path ref) ans) l) /\
  (fork_requested l = true ->
   attempts l <> [] ->
   (forall ev, In ev (attempts l) -> resp ev <> RefCreated) ->
   exists rq es e,
     List.length es = 6%nat /\
     attempts l
     = (map (fun e => Ev rq (Rejected e)) es ++ [Ev rq (Rejected e)])%list /\
     delays l = repeat pause 6 /\
     r = inr e) /\
  (fork_requested l = false ->
   attempts l <> [] ->
   (forall ev, In ev (attempts l) -> resp ev <> RefCreated) ->
   exists rq e,
     attempts l = [Ev rq (Rejected e)] /\ delays l = [] /\ r = inr e).
Proof.
  cbv zeta. pose proof retry_structure as S. cbv zeta in S.
  set (l := log (editGithubBlob api node params w)) in *.
  set (r := result (editGithubBlob api node params w)) in *.
  destruct S as [[Ha Hd]
                | [(rq & es & Hlen & Ha & Hd & Hgo)
                  | (rq & es & e & Hlen & Ha & Hd & Hr)]].
  - (* no attempt *)
    rewrite Ha, Hd. repeat split; intros; simpl in *;
      try contradiction; try congruence; try lia; try discriminate.
  - (* accepted after [es] *)
    assert (Hn : List.length (attempts l) = S (List.length es)).
    { rewrite Ha, length_app, length_map. simpl. lia. }
    repeat split.
    + intros ev Hev. rewrite Hd in Hev. exact (repeat_spec _ _ _ Hev).
    + rewrite H in Hlen. lia.
    + rewrite Hd, Hn. f_equal. lia.
    + rewrite H in Hlen. lia.
    + rewrite H in Hlen. rewrite Hd.
      replace (List.length es) with 0%nat by lia. reflexivity.
    + rewrite H in Hn. simpl in Hn. rewrite Hd.
      replace (List.length es) with 2%nat by lia. reflexivity.
    + exact Hgo.
    + intros _ _ Hnever. exfalso.
      apply (Hnever (Ev rq RefCreated)); [| reflexivity].
      rewrite Ha. apply in_or_app. right. left. reflexivity.
    + intros _ _ Hnever. exfalso.
      apply (Hnever (Ev rq RefCreated)); [| reflexivity].
      rewrite Ha. apply in_or_app. right. left. reflexivity.
  - (* rejected to the end *)
    assert (Hn : List.length (attempts l) = S (List.length es)).
    { rewrite Ha, length_app, length_map. simpl. lia. }
    repeat split.
    + intros ev Hev. rewrite Hd in Hev. exact (repeat_spec _ _ _ Hev).
    + rewrite H in Hlen. lia.
    + rewrite Hd, Hn. f_equal. lia.
    + rewrite H in Hlen. lia.
    + rewrite H in Hlen. rewrite Hd, Hlen. reflexivity.
    + exfalso. rewrite Ha in H.
      change [Ev rq0 (Rejected e1); Ev rq0 (Rejected e2); Ev rq0 RefCreated]
        with ([Ev rq0 (Rejected e1); Ev rq0 (Rejected e2)]
                ++ [Ev rq0 RefCreated])%list in H.
      apply app_inj_tail in H. destruct H as [_ H]. discriminate H.
    + exfalso. rewrite Ha in H.
      change [Ev rq0 (Rejected e1); Ev rq0 (Rejected e2); Ev rq0 RefCreated]
        with ([Ev rq0 (Rejected e1); Ev rq0 (Rejected e2)]
                ++ [Ev rq0 RefCreated])%list in H.
      apply app_inj_tail in H. destruct H as [_ H]. discriminate H.
    + intros Hfork _ _. rewrite Hfork in Hlen.
      exists rq, es, e. rewrite Hd, Hlen. repeat split; assumption.
    + intros Hfork _ _. rewrite Hfork in Hlen.
      exists rq, e. rewrite Hd, Hlen, Ha.
      destruct es; [| discriminate Hlen]. repeat split. exact Hr.
Qed.

(** C3.  A run in which the credential has no push permission on the base
    repository.  When it returns, its log is: the two resolutions, the
    creation of the fork, the reading of the clock, the creation (after at
    most six rejections) of the head branch in the fork at the commit the
    base branch points to, the fetch and the commit in the fork on that
    branch, and the pull request from [fork owner:head branch] into the base
    branch of the base repository; the result is the URL of that pull
    request.  Whatever the end of the run, the fork is requested as soon as
    the base branch is resolved, a ref is only ever created in the fork and
    at that commit, and an answered pull request is the result. *)
Theorem fork_and_pull_request (rd : ReposGetData) :
  In (Ev (ReposGet (baseRepo params)) (RepoRes rd))
     (log (editGithubBlob api node params w)) ->
  push (permissions rd) = false ->
  (forall url,
     result (editGithubBlob api node params w) = inl url ->
     exists bd fk t es fd c pr,
       let fork := mkRepo (login (fork_owner fk)) (name fk) in
       let head :=
         "update-" ++ basename node (filePath params) ++ "-"
           ++ string_of_Z (round_seconds t) in
       (List.length es <= 6)%nat /\
       log (editGithubBlob api node params w) =
       ([Ev (ReposGet (baseRepo params)) (RepoRes rd);
         Ev (ReposGetBranch (baseRepo params) (baseBranch params rd))
            (BranchRes bd);
         Ev (ReposCreateFork (baseRepo params)) (ForkRes fk);
         Ev DateNow (Clock t)]
        ++ retry_log
             (GitCreateRef fork ("refs/heads/" ++ head) (sha (commit bd)))
             5000 es RefCreated
        ++ [Ev (ReposGetContents fork (filePath params) head)
               (ContentsRes (File fd));
            Ev (ReposCreateOrUpdateFile fork (filePath params)
                  (message params)
                  (utf8_to_base64 node
                     (replace params (oldContent node fd)))
                  (file_sha fd) head)
               (CommitRes c);
            Ev (PullsCreate (baseRepo params) (baseBranch params rd)
                  (login (fork_owner fk) ++ ":" ++ head)
                  (first (split (message params) blank_line))
                  (join (slice1 (split (message params) blank_line))
                     blank_line))
               (PullRes pr)])%list /\
       url = html_url pr) /\
  (forall bd,
     In (Ev (ReposGetBranch (baseRepo params) (baseBranch params rd))
            (BranchRes bd))
        (log (editGithubBlob api node params w)) ->
     exists ans,
       In (Ev (ReposCreateFork (baseRepo params)) ans)
          (log (editGithubBlob api node params w))) /\
  (forall hr ref s ans,
     In (Ev (GitCreateRef hr ref s) ans)
        (log (editGithubBlob api node params w)) ->
     exists fk bd,
       In (Ev (ReposCreateFork (baseRepo params)) (ForkRes fk))
          (log (editGithubBlob api node params w)) /\
       In (Ev (ReposGetBranch (baseRepo params) (baseBranch params rd))
              (BranchRes bd))
          (log (editGithubBlob api node params w)) /\
       hr = mkRepo (login (fork_owner fk)) (name fk) /\
       s = sha (commit bd)) /\
  (forall r base head title body pr,
     In (Ev (PullsCreate r base head title body) (PullRes pr))
        (log (editGithubBlob api node params w)) ->
     result (editGithubBlob api node params w) = inl (html_url pr)).
Proof.
  run_cases api node params w.
  all: unfold_shape_all.
  all: intros Hrepo Hpush'.
  all: use_in Hrepo.
  all: try congruence.
  all: repeat split.
  all: intros.
  all: try match goal with H : In _ _ |- _ => use_in H end.
  all: try solve [reflexivity | discriminate].
  all: try solve [eexists; find_in].
  all: try solve [do 2 eexists; repeat split; find_in || reflexivity].
  all: match goal with
       | H : inl _ = inl _ |- _ => inversion H; clear H; subst
       end.
  all: exists bd, fk, t, es, fd, c, pr; cbv zeta.
  all: split; [assumption | split; [| reflexivity]].
  all: rewrite <- ?app_assoc; reflexivity.
Qed.

(** C4.  A run in which the credential has push permission and the base
    branch is not protected.  It requests no fork, no ref and no pull
    request, and it fetches and commits in the base repository on the base
    branch.  It returns as soon as the commit is accepted, with the URL of
    the new commit; the log of a run that returns is the two resolutions,
    the fetch and the commit. *)
Theorem direct_push_path (rd : ReposGetData) (bd : BranchData) :
  In (Ev (ReposGet (baseRepo params)) (RepoRes rd))
     (log (editGithubBlob api node params w)) ->
  push (permissions rd) = true ->
  In (Ev (ReposGetBranch (baseRepo params) (baseBranch params rd))
         (BranchRes bd))
     (log (editGithubBlob api node params w)) ->
  protected bd = false ->
  (forall ev, In ev (log (editGithubBlob api node params w)) ->
     is_createFork (req ev) = false /\ is_createRef (req ev) = false /\
     is_pull (req ev) = false) /\
  (forall hr path ref ans,
     In (Ev (ReposGetContents hr path ref) ans)
        (log (editGithubBlob api node params w)) ->
     hr = baseRepo params /\ ref = baseBranch params rd) /\
  (forall hr path msg cont s b ans,
     In (Ev (ReposCreateOrUpdateFile hr path msg cont s b) ans)
        (log (editGithubBlob api node params w)) ->
     hr = baseRepo params /\ b = baseBranch params rd) /\
  (forall hr path msg cont s b c,
     In (Ev (ReposCreateOrUpdateFile hr path msg cont s b) (CommitRes c))
        (log (editGithubBlob api node params w)) ->
     result (editGithubBlob api node params w) = inl (commit_html_url c)) /\
  (forall url,
     result (editGithubBlob api node params w) = inl url ->
     exists fd c,
       log (editGithubBlob api node params w) =
       [Ev (ReposGet (baseRepo params)) (RepoRes rd);
        Ev (ReposGetBranch (baseRepo params) (baseBranch params rd))
           (BranchRes bd);
        Ev (ReposGetContents (baseRepo params) (filePath params)
              (baseBranch params rd))
           (ContentsRes (File fd));
        Ev (ReposCreateOrUpdateFile (baseRepo params) (filePath params)
              (message params)
              (utf8_to_base64 node (replace params (oldContent node fd)))
              (file_sha fd) (baseBranch params rd))
           (CommitRes c)] /\
       url = commit_html_url c).
Proof.
  run_cases api node params w.
  all: unfold_shape_all.
  all: intros Hrepo Hpush' Hbranch Hprot'.
  all: use_in Hrepo.
  all: try congruence.
  all: use_in Hbranch.
  all: try congruence.
  all: repeat split.
  all: intros.
  all: try match goal with H : In _ _ |- _ => use_in H end.
  all: try solve [repeat split; reflexivity | discriminate].
  match goal with
  | H : inl _ = inl _ |- _ => inversion H; clear H; subst
  end.
  exists fd, c. split; reflexivity.
Qed.

(** C5, as the code has it.  A run that found a directory at the path fails
    with the error "expected '<filePath>' is a file, got a directory", and
    does so before any commit of a file and before any pull request.  When
    the run needs no pull request it has written nothing at all; when it
    needs one, the head ref has been created by then, and so has the fork
    when the credential may not push. *)
Theorem directory_guard (hr : RepositoryRef) (path ref : string)
    (entries : list string) :
  In (Ev (ReposGetContents hr path ref) (ContentsRes (Listing entries)))
     (log (editGithubBlob api node params w)) ->
  result (editGithubBlob api node params w) = inr (NotAFileError params) /\
  (forall ev, In ev (log (editGithubBlob api node params w)) ->
     is_commit (req ev) = false /\ is_pull (req ev) = false) /\
  (forall rd bd,
     In (Ev (ReposGet (baseRepo params)) (RepoRes rd))
        (log (editGithubBlob api node params w)) ->
     In (Ev (ReposGetBranch (baseRepo params) (baseBranch params rd))
            (BranchRes bd))
        (log (editGithubBlob api node params w)) ->
     if needsPr rd bd
     then (exists r rf s,
             In (Ev (GitCreateRef r rf s) RefCreated)
                (log (editGithubBlob api node params w))) /\
          (needsFork rd = true ->
           exists fk,
             In (Ev (ReposCreateFork (baseRepo params)) (ForkRes fk))
                (log (editGithubBlob api node params w)))
     else writes (log (editGithubBlob api node params w)) = []).
Proof.
  run_cases api node params w.
  all: unfold_shape_all.
  all: intros Hdir.
  all: use_in Hdir.
  all: repeat split.
  all: intros.
  all: repeat match goal with H : In _ _ |- _ => use_in H end.
  all: try solve [reflexivity | discriminate].
  all: unfold_shape_all.
  all: try reflexivity.
  all: repeat split; intros; try discriminate.
  all: try solve [do 3 eexists; find_in | eexists; find_in].
Qed.

(** C6, as the code has it.  When a pull request is needed the head branch
    is ["update-" ++ basename filePath ++ "-" ++ seconds], the seconds being
    the clock reading rounded to the nearest second; it is the branch of the
    ref that is created and of the fetch.  When no pull request is needed
    the head branch is the base branch.  For one file, two clock readings
    give the same name exactly when they round to the same second, which
    readings do that are less than half a second away from it. *)
Theorem head_branch_name (rd : ReposGetData) (bd : BranchData) :
  In (Ev (ReposGet (baseRepo params)) (RepoRes rd))
     (log (editGithubBlob api node params w)) ->
  In (Ev (ReposGetBranch (baseRepo params) (baseBranch params rd))
         (BranchRes bd))
     (log (editGithubBlob api node params w)) ->
  (forall hr path ref ans,
     In (Ev (ReposGetContents hr path ref) ans)
        (log (editGithubBlob api node params w)) ->
     if needsPr rd bd
     then exists t,
            In (Ev DateNow (Clock t))
               (log (editGithubBlob api node params w)) /\
            ref = "update-" ++ basename node (filePath params) ++ "-"
                    ++ string_of_Z (round_seconds t)
     else ref = baseBranch params rd) /\
  (forall hr ref s ans,
     In (Ev (GitCreateRef hr ref s) ans)
        (log (editGithubBlob api node params w)) ->
     needsPr rd bd = true /\
     exists t,
       In (Ev DateNow (Clock t)) (log (editGithubBlob api node params w)) /\
       ref = "refs/heads/" ++ "update-" ++ basename node (filePath params)
               ++ "-" ++ string_of_Z (round_seconds t)) /\
  (forall t1 t2,
     "update-" ++ basename node (filePath params) ++ "-"
       ++ string_of_Z (round_seconds t1)
     = "update-" ++ basename node (filePath params) ++ "-"
         ++ string_of_Z (round_seconds t2)
     <-> round_seconds t1 = round_seconds t2) /\
  (forall t k,
     round_seconds t = k <-> 1000 * k - 500 <= t < 1000 * k + 500).
Proof.
  intros Hrepo Hbranch.
  assert (Hnames : forall t1 t2,
     "update-" ++ basename node (filePath params) ++ "-"
       ++ string_of_Z (round_seconds t1)
     = "update-" ++ basename node (filePath params) ++ "-"
         ++ string_of_Z (round_seconds t2)
     <-> round_seconds t1 = round_seconds t2).
  { intros t1 t2. split; [| intros ->; reflexivity].
    intros H. apply append_inj_l, append_inj_l, append_inj_l in H.
    exact (string_of_Z_inj _ _ H). }
  assert (Hround : forall t k,
     round_seconds t = k <-> 1000 * k - 500 <= t < 1000 * k + 500).
  { intros t k. unfold round_seconds. split.
    - intros <-. pose proof (Z.div_mod (t + 500) 1000 ltac:(lia)).
      pose proof (Z.mod_pos_bound (t + 500) 1000 ltac:(lia)). lia.
    - intros H. symmetry.
      apply (Z.div_unique (t + 500) 1000 k (t + 500 - 1000 * k)); lia. }
  revert Hrepo Hbranch. run_cases api node params w.
  all: unfold_shape_all.
  all: intros Hrepo Hbranch.
  all: use_in Hrepo.
  all: use_in Hbranch.
  all: unfold_shape_all.
  all: (split; [| split; [| split; [exact Hnames | exact Hround]]]).
  all: intros.
  all: try match goal with H : In _ _ |- _ => use_in H end.
  all: try solve [reflexivity | discriminate].
  all: try solve [eexists; split; [find_in | reflexivity]].
  all: split; [reflexivity |].
  all: eexists; split; [find_in | reflexivity].
Qed.

(** C7.  The title and the body of a pull request are what is before and
    what is after the first blank line of the commit message: ["Fix typo"]
    and ["Details here"] for the message of the example, the whole message
    and nothing when the message has one line only, and in general the
    shortest text that a blank line follows, and all the rest, later blank
    lines included. *)
Theorem pull_request_title_and_body :
  first (split ("Fix typo" ++ blank_line ++ "Details here") blank_line)
  = "Fix typo" /\
  join (slice1 (split ("Fix typo" ++ blank_line ++ "Details here") blank_line))
    blank_line
  = "Details here" /\
  (forall msg,
     (forall a b, msg <> a ++ LF ++ b) ->
     first (split msg blank_line) = msg /\
     join (slice1 (split msg blank_line)) blank_line = "") /\
  (forall msg,
     let title := first (split msg blank_line) in
     let body := join (slice1 (split msg blank_line)) blank_line in
     ((forall a b, msg <> a ++ blank_line ++ b) /\ title = msg /\ body = "")
     \/
     (msg = title ++ blank_line ++ body /\
      forall a b, msg = a ++ blank_line ++ b ->
                  (String.length title <= String.length a)%nat)) /\
  (forall r base head title body ans,
     In (Ev (PullsCreate r base head title body) ans)
        (log (editGithubBlob api node params w)) ->
     title = first (split (message params) blank_line) /\
     body = join (slice1 (split (message params) blank_line)) blank_line).
Proof.
  split; [reflexivity |].
  split; [reflexivity |].
  split.
  { intros msg Hline.
    destruct (title_body_spec msg) as [[_ Hwhole] | [Hsplit _]];
      [exact Hwhole |].
    exfalso. apply (Hline _ _ Hsplit). }
  split; [exact title_body_spec |].
  run_cases api node params w.
  all: unfold_shape_all.
  all: intros.
  all: match goal with H : In _ _ |- _ => use_in H end.
  all: split; reflexivity.
Qed.

(** C8.  A fetched file whose answer has no [content], or an empty one, is
    no failure: the old content is the empty string (decoding nothing gives
    nothing) and [replace] is applied to it.  The run then either stops at
    the guard against an edit that changes nothing, or goes on to commit
    [replace ""] at the path it fetched. *)
Theorem missing_content_is_empty (hr : RepositoryRef) (path ref : string)
    (fd : FileData) :
  In (Ev (ReposGetContents hr path ref) (ContentsRes (File fd)))
     (log (editGithubBlob api node params w)) ->
  content fd = None \/ content fd = Some "" ->
  base64_to_utf8 node "" = "" ->
  oldContent node fd = "" /\
  (replace params "" = "" ->
   result (editGithubBlob api node params w) = inr NoChangeError) /\
  (replace params "" <> "" ->
   exists msg ans,
     In (Ev (ReposCreateOrUpdateFile hr path msg
               (utf8_to_base64 node (replace params "")) (file_sha fd) ref)
            ans)
        (log (editGithubBlob api node params w))).
Proof.
  intros Hfile Hfalsy Hdecode.
  assert (Hold : oldContent node fd = "").
  { unfold oldContent, or_else. destruct Hfalsy as [-> | ->]; exact Hdecode. }
  split; [exact Hold |].
  revert Hfile. run_cases api node params w.
  all: unfold_shape_all.
  all: intros Hfile.
  all: use_in Hfile.
  all: rewrite Hold in *.
  all: split; intros; try congruence.
  all: try reflexivity.
  all: do 2 eexists; find_in.
Qed.

(** C9.  The two decisions of a run are [needsFork = not push] and
    [needsPr = needsFork or protected]; a fork needs a pull request, so of
    the four pairs of values three occur.  In a run, the fork is requested
    exactly when [needsFork] holds, and a run that requested a fork and
    returns gives the URL of the pull request it opened. *)
Theorem decisions :
  (forall rd, needsFork rd = negb (push (permissions rd))) /\
  (forall rd bd, needsPr rd bd = needsFork rd || protected bd) /\
  (forall rd bd, needsFork rd = true -> needsPr rd bd = true) /\
  (forall rd bd,
     (needsFork rd, needsPr rd bd) = (false, false) \/
     (needsFork rd, needsPr rd bd) = (false, true) \/
     (needsFork rd, needsPr rd bd) = (true, true)) /\
  (forall p q,
     let rd := mkReposGetData "master" (mkPermissions p) in
     let bd := mkBranchData q (mkCommitRef "c0ffee") in
     (needsFork rd, needsPr rd bd) = (negb p, negb p || q)) /\
  (forall rd bd,
     In (Ev (ReposGet (baseRepo params)) (RepoRes rd))
        (log (editGithubBlob api node params w)) ->
     In (Ev (ReposGetBranch (baseRepo params) (baseBranch params rd))
            (BranchRes bd))
        (log (editGithubBlob api node params w)) ->
     (fork_requested (log (editGithubBlob api node params w))
      = needsFork rd)) /\
  (forall url,
     result (editGithubBlob api node params w) = inl url ->
     fork_requested (log (editGithubBlob api node params w)) = true ->
     exists r base head title body pr,
       In (Ev (PullsCreate r base head title body) (PullRes pr))
          (log (editGithubBlob api node params w)) /\
       url = html_url pr).
Proof.
  split; [reflexivity |].
  split; [reflexivity |].
  split; [intros rd bd H; unfold needsPr; rewrite H; reflexivity |].
  split.
  { intros rd bd. unfold needsPr, needsFork.
    destruct (push (permissions rd)), (protected bd); simpl; auto. }
  split; [reflexivity |].
  run_cases api node params w.
  all: unfold_shape_all.
  all: split; intros.
  all: repeat match goal with H : In _ _ |- _ => use_in H end.
  all: try discriminate.
  all: unfold_shape_all.
  all: count_log.
  all: try reflexivity.
  all: try match goal with
           | H : fork_requested _ = true |- _ =>
               revert H; count_log; try discriminate; intros _
           end.
  all: match goal with
       | H : inl _ = inl _ |- _ => inversion H; clear H; subst
       end.
  all: do 6 eexists; split; [find_in | reflexivity].
Qed.

(** C10.  Without a [commitMessage] from the caller, the message of the
    commit is ["Update " ++ filePath], and the title and the body of the
    pull request are the two parts of that same string.  These requests are
    sent: a run that fetched a file that [replace] changes requests the
    commit under that message; a run whose commit was accepted and that
    needs a pull request requests it under that title and body; and a run
    that returns has had the commit accepted under that message. *)
Theorem default_commit_message :
  commitMessage params = None ->
  (forall hr path msg cont s b ans,
     In (Ev (ReposCreateOrUpdateFile hr path msg cont s b) ans)
        (log (editGithubBlob api node params w)) ->
     msg = "Update " ++ filePath params) /\
  (forall r base head title body ans,
     In (Ev (PullsCreate r base head title body) ans)
        (log (editGithubBlob api node params w)) ->
     title = first (split ("Update " ++ filePath params) blank_line) /\
     body =
     join (slice1 (split ("Update " ++ filePath params) blank_line))
       blank_line) /\
  (forall hr path ref fd,
     In (Ev (ReposGetContents hr path ref) (ContentsRes (File fd)))
        (log (editGithubBlob api node params w)) ->
     replace params (oldContent node fd) <> oldContent node fd ->
     exists ans,
       In (Ev (ReposCreateOrUpdateFile hr path
                 ("Update " ++ filePath params)
                 (utf8_to_base64 node (replace params (oldContent node fd)))
                 (file_sha fd) ref)
              ans)
          (log (editGithubBlob api node params w))) /\
  (forall hr path msg cont s b c rd bd,
     In (Ev (ReposCreateOrUpdateFile hr path msg cont s b) (CommitRes c))
        (log (editGithubBlob api node params w)) ->
     In (Ev (ReposGet (baseRepo params)) (RepoRes rd))
        (log (editGithubBlob api node params w)) ->
     In (Ev (ReposGetBranch (baseRepo params) (baseBranch params rd))
            (BranchRes bd))
        (log (editGithubBlob api node params w)) ->
     needsPr rd bd = true ->
     exists ans,
       In (Ev (PullsCreate (baseRepo params) (baseBranch params rd)
                 (owner hr ++ ":" ++ b)
                 (first (split ("Update " ++ filePath params) blank_line))
                 (join
                    (slice1 (split ("Update " ++ filePath params) blank_line))
                    blank_line))
              ans)
          (log (editGithubBlob api node params w))) /\
  (forall url,
     result (editGithubBlob api node params w) = inl url ->
     exists hr path cont s b c,
       In (Ev (ReposCreateOrUpdateFile hr path
                 ("Update " ++ filePath params) cont s b)
              (CommitRes c))
          (log (editGithubBlob api node params w))).
Proof.
  intros Hnone.
  assert (Hmsg : message params = "Update " ++ filePath params).
  { unfold message. rewrite Hnone. reflexivity. }
  run_cases api node params w.
  all: unfold_shape_all.
  all: rewrite ?Hmsg.
  all: split; [| split; [| split; [| split]]]; intros.
  all: repeat match goal with H : In _ _ |- _ => use_in H end.
  all: try discriminate.
  all: try congruence.
  all: try solve [split; reflexivity | reflexivity].
  all: unfold_shape_all.
  all: try discriminate.
  all: try solve [eexists; find_in].
  all: do 6 eexists; find_in.
Qed.

End Claims.

(** ** The claims on runs against the scripted server *)

(** A membership in the log of a run that is computed. *)
Ltac in_run := vm_compute; repeat first [left; reflexivity | right].

(** The no-op edit of a caller who may push: the run fails at the guard and
    has written nothing. *)
Lemma no_change_guard_witness :
  let out := Mock.run Mock.direct Mock.unchanged None 0 in
  result out = inr NoChangeError /\ writes (log out) = [].
Proof.
  destruct (no_change_guard (Mock.env Mock.direct) Node.platform
              (Mock.request Mock.unchanged None) (Mock.start 0)
              Mock.upstream "Formula/hello.rb" "master"
              (mkFileData (Some (Node.encode "version 1.0")) "b10b"))
    as (Hresult & _ & Hwrites).
  - in_run.
  - reflexivity.
  - split; [exact Hresult |].
    apply (Hwrites (Mock.repo_answer Mock.direct)
             (Mock.branch_answer Mock.direct)); in_run.
Defined.

(** The no-op edit of a caller who may not push: the run fails at the same
    guard, after it created a fork and a ref in it. *)
Lemma no_change_after_writes :
  let out := Mock.run Mock.outsider Mock.unchanged None 1573334000000 in
  (forall old, Mock.unchanged old = old) /\
  result out = inr NoChangeError /\
  writes (log out)
  = [ReposCreateFork Mock.upstream;
     GitCreateRef Mock.fork "refs/heads/update-hello.rb-1573334000" "c0ffee"].
Proof. vm_compute. repeat split; reflexivity. Qed.

(** The third attempt succeeds: two delays, ten seconds in all, and the run
    returns the pull request. *)
Lemma ref_creation_retries_witness :
  let out := Mock.run Mock.lagging Mock.bump None 1573334000000 in
  delays (log out)
  = [Ev (SetTimeout 5000) TimerFired; Ev (SetTimeout 5000) TimerFired] /\
  Mock.clock (world out) = 1573334000000 + 2 * 5000 /\
  result out = inl "https://github.com/Homebrew/homebrew-core/pull/1".
Proof.
  destruct (ref_creation_retries (Mock.env Mock.lagging) Node.platform
              (Mock.request Mock.bump None) (Mock.start 1573334000000))
    as (_ & _ & _ & Hthird & _).
  split; [| split; reflexivity].
  apply (Hthird
           (GitCreateRef Mock.fork "refs/heads/update-hello.rb-1573334000"
              "c0ffee")
           (HttpError 404 "Not Found") (HttpError 404 "Not Found")).
  reflexivity.
Defined.

(** No attempt succeeds: seven attempts, six delays, thirty seconds in all,
    and the run fails with the rejection. *)
Example ref_creation_never_succeeds :
  let out := Mock.run Mock.stuck Mock.bump None 1573334000000 in
  List.length (attempts (log out)) = 7%nat /\
  List.length (delays (log out)) = 6%nat /\
  Mock.clock (world out) = 1573334000000 + 6 * 5000 /\
  result out = inr (HttpError 404 "Not Found").
Proof. vm_compute. repeat split; reflexivity. Qed.

(** A caller who may not push gets the URL of a pull request from the
    fork. *)
Lemma fork_and_pull_request_witness :
  let out := Mock.run Mock.outsider Mock.bump None 1573334000000 in
  push (permissions (Mock.repo_answer Mock.outsider)) = false /\
  result out = inl "https://github.com/Homebrew/homebrew-core/pull/1" /\
  exists created opened,
    In (Ev (GitCreateRef Mock.fork "refs/heads/update-hello.rb-1573334000"
              "c0ffee") created) (log out) /\
    In (Ev (PullsCreate Mock.upstream "master"
              "bot:update-hello.rb-1573334000" "Update Formula/hello.rb" "")
           opened) (log out).
Proof.
  destruct (fork_and_pull_request (Mock.env Mock.outsider) Node.platform
              (Mock.request Mock.bump None) (Mock.start 1573334000000)
              (Mock.repo_answer Mock.outsider))
    as (_ & _ & _ & Hresult).
  - in_run.
  - reflexivity.
  - split; [reflexivity |].
    split.
    + apply (Hresult Mock.upstream "master" "bot:update-hello.rb-1573334000"
               "Update Formula/hello.rb" ""
               (mkPullData "https://github.com/Homebrew/homebrew-core/pull/1")).
      in_run.
    + exists RefCreated,
        (PullRes
           (mkPullData "https://github.com/Homebrew/homebrew-core/pull/1")).
      split; in_run.
Defined.

(** A caller who may push to an open branch gets the URL of the commit, and
    the log has the four events of the direct path. *)
Lemma direct_push_path_witness :
  let out := Mock.run Mock.direct Mock.bump None 0 in
  push (permissions (Mock.repo_answer Mock.direct)) = true /\
  protected (Mock.branch_answer Mock.direct) = false /\
  result out = inl "https://github.com/Homebrew/homebrew-core/commit/1" /\
  map req (log out)
  = [ReposGet Mock.upstream;
     ReposGetBranch Mock.upstream "master";
     ReposGetContents Mock.upstream "Formula/hello.rb" "master";
     ReposCreateOrUpdateFile Mock.upstream "Formula/hello.rb"
       "Update Formula/hello.rb" (Node.encode "version 1.1") "b10b" "master"].
Proof.
  destruct (direct_push_path (Mock.env Mock.direct) Node.platform
              (Mock.request Mock.bump None) (Mock.start 0)
              (Mock.repo_answer Mock.direct) (Mock.branch_answer Mock.direct))
    as (_ & _ & _ & _ & Hlog).
  - in_run.
  - reflexivity.
  - in_run.
  - reflexivity.
  - destruct (Hlog _ eq_refl) as (fd & c & Hshape & Hurl).
    repeat split; try reflexivity.
Defined.

(** A directory at the path, for a caller who may push: the run fails at
    the guard and has written nothing. *)
Lemma directory_guard_witness :
  let out :=
    Mock.run (Mock.with_directory Mock.direct) Mock.bump None 0 in
  result out
  = inr (JsError "expected 'Formula/hello.rb' is a file, got a directory") /\
  writes (log out) = [].
Proof.
  destruct (directory_guard (Mock.env (Mock.with_directory Mock.direct))
              Node.platform (Mock.request Mock.bump None) (Mock.start 0)
              Mock.upstream "Formula/hello.rb" "master" ["hello.rb"])
    as (Hresult & _ & Hwrites).
  - in_run.
  - split; [exact Hresult |].
    apply (Hwrites (Mock.repo_answer Mock.direct)
             (Mock.branch_answer Mock.direct)); in_run.
Defined.

(** A directory at the path, for a caller who may not push: the run fails at
    the same guard, after it created a fork and a ref in it. *)
Lemma directory_after_writes :
  let out :=
    Mock.run (Mock.with_directory Mock.outsider) Mock.bump None
      1573334000000 in
  Mock.at_path (Mock.with_directory Mock.outsider) = Listing ["hello.rb"] /\
  result out = inr (NotAFileError (Mock.request Mock.bump None)) /\
  writes (log out)
  = [ReposCreateFork Mock.upstream;
     GitCreateRef Mock.fork "refs/heads/update-hello.rb-1573334000" "c0ffee"].
Proof. vm_compute. repeat split; reflexivity. Qed.

(** Behind a protected branch the head branch is named after the file and
    the second. *)
Lemma head_branch_name_witness :
  let out := Mock.run Mock.guarded Mock.bump None 1573334000499 in
  needsPr (Mock.repo_answer Mock.guarded) (Mock.branch_answer Mock.guarded)
  = true /\
  forall hr path ref ans,
    In (Ev (ReposGetContents hr path ref) ans) (log out) ->
    ref = "update-hello.rb-1573334000".
Proof.
  destruct (head_branch_name (Mock.env Mock.guarded) Node.platform
              (Mock.request Mock.bump None) (Mock.start 1573334000499)
              (Mock.repo_answer Mock.guarded)
              (Mock.branch_answer Mock.guarded))
    as (Hfetch & _ & _ & _).
  - in_run.
  - in_run.
  - split; [reflexivity |].
    intros hr path ref ans Hin.
    destruct (Hfetch hr path ref ans Hin) as (t & Hclock & Href).
    rewrite Href.
    vm_compute in Hclock.
    repeat (destruct Hclock as [Hclock | Hclock];
            [try discriminate Hclock |]);
      [| contradiction].
    injection Hclock as <-. reflexivity.
Defined.

(** Two runs on one file, four tenths of a second apart, create the same
    ref. *)
Lemma same_second_same_branch :
  let first_run := Mock.run Mock.outsider Mock.bump None 1573334000000 in
  let second_run := Mock.run Mock.outsider Mock.bump None 1573334000400 in
  Mock.start 1573334000000 <> Mock.start 1573334000400 /\
  attempts (log first_run) = attempts (log second_run) /\
  attempts (log first_run)
  = [Ev (GitCreateRef Mock.fork "refs/heads/update-hello.rb-1573334000"
           "c0ffee") RefCreated].
Proof. vm_compute. repeat split; try reflexivity. discriminate. Qed.

(** The message of the example, as a caller's commit message. *)
Lemma pull_request_title_and_body_witness :
  let msg := "Fix typo" ++ blank_line ++ "Details here" in
  let out := Mock.run Mock.outsider Mock.bump (Some msg) 1573334000000 in
  (exists ans,
     In (Ev (PullsCreate Mock.upstream "master"
               "bot:update-hello.rb-1573334000" "Fix typo" "Details here")
            ans) (log out)) /\
  (forall r base head title body ans,
     In (Ev (PullsCreate r base head title body) ans) (log out) ->
     title = "Fix typo" /\ body = "Details here").
Proof.
  destruct (pull_request_title_and_body (Mock.env Mock.outsider)
              Node.platform
              (Mock.request Mock.bump
                 (Some ("Fix typo" ++ blank_line ++ "Details here")))
              (Mock.start 1573334000000))
    as (_ & _ & _ & _ & Hpull).
  split; [| exact Hpull].
  exists
    (PullRes (mkPullData "https://github.com/Homebrew/homebrew-core/pull/1")).
  in_run.
Defined.

(** A file without content: the old content is empty and the new content is
    committed. *)
Lemma missing_content_is_empty_witness :
  let out :=
    Mock.run (Mock.with_bare_file Mock.direct) (fun _ => "version 1.1")
      None 0 in
  exists msg ans,
    In (Ev (ReposCreateOrUpdateFile Mock.upstream "Formula/hello.rb" msg
              (Node.encode "version 1.1") "b10b" "master") ans) (log out).
Proof.
  destruct (missing_content_is_empty
              (Mock.env (Mock.with_bare_file Mock.direct)) Node.platform
              (Mock.request (fun _ => "version 1.1") None) (Mock.start 0)
              Mock.upstream "Formula/hello.rb" "master"
              (mkFileData None "b10b"))
    as (_ & _ & Hcommit).
  - in_run.
  - left. reflexivity.
  - reflexivity.
  - apply Hcommit. discriminate.
Defined.

(** A run that forked and returned gives the URL of its pull request. *)
Lemma decisions_witness :
  let out := Mock.run Mock.outsider Mock.bump None 1573334000000 in
  exists r base head title body pr,
    In (Ev (PullsCreate r base head title body) (PullRes pr)) (log out) /\
    "https://github.com/Homebrew/homebrew-core/pull/1" = html_url pr.
Proof.
  destruct (decisions (Mock.env Mock.outsider) Node.platform
              (Mock.request Mock.bump None) (Mock.start 1573334000000))
    as (_ & _ & _ & _ & _ & _ & Hpull).
  apply Hpull; reflexivity.
Defined.

(** Without a message from the caller, the commit and the pull request are
    sent, and they are named after the file. *)
Lemma default_commit_message_witness :
  let out := Mock.run Mock.outsider Mock.bump None 1573334000000 in
  (exists hr path cont s b c,
     In (Ev (ReposCreateOrUpdateFile hr path "Update Formula/hello.rb" cont
               s b) (CommitRes c)) (log out)) /\
  (exists ans,
     In (Ev (PullsCreate Mock.upstream "master"
               "bot:update-hello.rb-1573334000" "Update Formula/hello.rb" "")
            ans) (log out)) /\
  (forall hr path msg cont s b ans,
     In (Ev (ReposCreateOrUpdateFile hr path msg cont s b) ans) (log out) ->
     msg = "Update Formula/hello.rb") /\
  (forall r base head title body ans,
     In (Ev (PullsCreate r base head title body) ans) (log out) ->
     title = "Update Formula/hello.rb" /\ body = "").
Proof.
  destruct (default_commit_message (Mock.env Mock.outsider) Node.platform
              (Mock.request Mock.bump None) (Mock.start 1573334000000)
              eq_refl)
    as (Hcommit & Hpull & _ & Hopened & Hsent).
  split; [exact (Hsent _ eq_refl) |].
  split; [| split; [exact Hcommit | exact Hpull]].
  apply (Hopened Mock.fork "Formula/hello.rb" "Update Formula/hello.rb"
           (Node.encode "version 1.1") "b10b" "update-hello.rb-1573334000"
           (mkCommitData "https://github.com/bot/homebrew-core/commit/1")
           (Mock.repo_answer Mock.outsider)
           (Mock.branch_answer Mock.outsider)).
  - in_run.
  - in_run.
  - in_run.
  - reflexivity.
Defined.

(** ** More of the module *)

Lemma sent_cons (p : Request -> bool) (ev : Event) (l : list Event) :
  sent p (ev :: l) = if p (req ev) then ev :: sent p l else sent p l.
Proof. reflexivity. Qed.

Lemma sent_app (p : Request -> bool) (l1 l2 : list Event) :
  sent p (l1 ++ l2) = (sent p l1 ++ sent p l2)%list.
Proof. apply filter_app. Qed.

Lemma sent_nil (p : Request -> bool) : sent p [] = [].
Proof. reflexivity. Qed.

Lemma sent_retry_log (p : Request -> bool) (rq : Request) (delay : Z)
    (es : list exn) (final : Response) :
  p rq = false -> p (SetTimeout delay) = false ->
  sent p (retry_log rq delay es final) = [].
Proof.
  intros Hrq Hd. unfold retry_log, sent.
  induction es as [| e es IH]; simpl; rewrite Hrq; [reflexivity |].
  rewrite Hd. exact IH.
Qed.

Lemma retry_log_length (rq : Request) (delay : Z) (es : list exn)
    (final : Response) :
  List.length (retry_log rq delay es final) = (2 * List.length es + 1)%nat.
Proof.
  unfold retry_log. induction es as [| e es IH]; simpl in *; [reflexivity |].
  rewrite IH. lia.
Qed.

Ltac count_sent :=
  repeat (progress (
    rewrite ?sent_cons, ?sent_app, ?sent_nil, ?app_nil_r;
    rewrite ?sent_retry_log by reflexivity;
    cbn [req is_createFork is_commit is_pull is_timeout is_createRef app])).

(** A log as what comes before its last event, and that event. *)
Ltac snoc_of l :=
  lazymatch l with
  | ?a :: nil => constr:((@nil Event, a))
  | ?a :: ?l' =>
      let p := snoc_of l' in
      lazymatch p with (?pre, ?x) => constr:((a :: pre, x)) end
  | (?l1 ++ ?l2)%list =>
      let p := snoc_of l2 in
      lazymatch p with (?pre, ?x) => constr:(((l1 ++ pre)%list, x)) end
  | retry_log ?rq ?d ?es ?f =>
      constr:((flat_map
                 (fun e => [Ev rq (Rejected e); Ev (SetTimeout d) TimerFired])
                 es, Ev rq f))
  end.

Ltac ends_with :=
  lazymatch goal with
  | |- exists pre, ?l = (pre ++ [_])%list =>
      let p := snoc_of l in
      lazymatch p with
      | (?pre, _) =>
          exists pre; unfold retry_log; cbn [app];
          rewrite ?app_nil_r, <- ?app_assoc; cbn [app]; reflexivity
      end
  end.

(** Rejections along a log. *)
Lemma settled_at {A} (r : Res A) (l : list Event) :
  settled r l ->
  forall pre rq e post,
    l = (pre ++ Ev rq (Rejected e) :: post)%list ->
    (post = [] /\ r = inr e) \/
    (is_createRef rq = true /\
     exists ans post',
       post = Ev (SetTimeout 5000) TimerFired :: Ev rq ans :: post').
Proof.
  intros Hl pre. revert l Hl.
  induction pre as [| ev pre IH]; intros l Hl rq e post ->; simpl in Hl.
  - destruct Hl as [Hhere _]. exact (Hhere e eq_refl).
  - destruct Hl as [_ Hrest]. exact (IH _ Hrest rq e post eq_refl).
Qed.

Lemma retry_log_head (rq : Request) (delay : Z) (es : list exn)
    (final : Response) (suffix : list Event) :
  exists ans post,
    (retry_log rq delay es final ++ suffix)%list = Ev rq ans :: post.
Proof.
  unfold retry_log. destruct es as [| e es]; simpl; eauto.
Qed.

Lemma settled_retry_log {A} (r : Res A) (rq : Request) (es : list exn)
    (final : Response) (suffix : list Event) :
  is_createRef rq = true ->
  settled r (Ev rq final :: suffix) ->
  settled r (retry_log rq 5000 es final ++ suffix).
Proof.
  intros Hrq Hend. induction es as [| e es IH]; [exact Hend |].
  change (retry_log rq 5000 (e :: es) final ++ suffix)%list
    with (Ev rq (Rejected e) :: Ev (SetTimeout 5000) TimerFired
            :: (retry_log rq 5000 es final ++ suffix))%list.
  split.
  - intros e0 _. right. split; [exact Hrq |].
    destruct (retry_log_head rq 5000 es final suffix) as (ans & post & ->).
    exists ans, post. reflexivity.
  - split; [intros e0 Hrej; discriminate Hrej | exact IH].
Qed.

Lemma settled_retry_log_end {A} (r : Res A) (rq : Request) (es : list exn)
    (final : Response) :
  is_createRef rq = true ->
  settled r [Ev rq final] ->
  settled r (retry_log rq 5000 es final).
Proof.
  intros Hrq Hend. rewrite <- (app_nil_r (retry_log rq 5000 es final)).
  apply settled_retry_log; assumption.
Qed.

Ltac settle :=
  repeat lazymatch goal with
    | |- settled _ (retry_log _ _ _ _ ++ _) =>
        apply settled_retry_log; [reflexivity |]
    | |- settled _ (retry_log _ _ _ _) =>
        apply settled_retry_log_end; [reflexivity |]
    | |- settled _ (_ :: _) =>
        split;
        [ let Hrej := fresh "Hrej" in
          intros ? Hrej; cbn [resp] in Hrej;
          first [ discriminate Hrej
                | injection Hrej as <-; left; split; reflexivity ]
        | ]
    | |- settled _ [] => exact I
    end.

Section Coverage.

Context {W : Type}.
Variables (api : Env W) (node : Platform) (params : Options) (w : W).

(** X1.  A run in which the credential may push and the base branch is
    protected.  No fork is requested; the head branch is created in the base
    repository, at the commit the base branch points to, in one attempt: a
    rejection of it is the result, without a delay.  When the run returns,
    its log is the two resolutions, the reading of the clock, the creation
    of the ref, the fetch and the commit on the head branch of the base
    repository, and the pull request from [owner:head branch] into the base
    branch; the result is the URL of the pull request. *)
Theorem same_repo_pull_request (rd : ReposGetData) (bd : BranchData) :
  In (Ev (ReposGet (baseRepo params)) (RepoRes rd))
     (log (editGithubBlob api node params w)) ->
  push (permissions rd) = true ->
  In (Ev (ReposGetBranch (baseRepo params) (baseBranch params rd))
         (BranchRes bd))
     (log (editGithubBlob api node params w)) ->
  protected bd = true ->
  fork_requested (log (editGithubBlob api node params w)) = false /\
  (forall hr ref s e,
     In (Ev (GitCreateRef hr ref s) (Rejected e))
        (log (editGithubBlob api node params w)) ->
     result (editGithubBlob api node params w) = inr e /\
     delays (log (editGithubBlob api node params w)) = []) /\
  (forall url,
     result (editGithubBlob api node params w) = inl url ->
     exists t fd c pr,
       let head :=
         "update-" ++ basename node (filePath params) ++ "-"
           ++ string_of_Z (round_seconds t) in
       log (editGithubBlob api node params w) =
       [Ev (ReposGet (baseRepo params)) (RepoRes rd);
        Ev (ReposGetBranch (baseRepo params) (baseBranch params rd))
           (BranchRes bd);
        Ev DateNow (Clock t);
        Ev (GitCreateRef (baseRepo params) ("refs/heads/" ++ head)
              (sha (commit bd)))
           RefCreated;
        Ev (ReposGetContents (baseRepo params) (filePath params) head)
           (ContentsRes (File fd));
        Ev (ReposCreateOrUpdateFile (baseRepo params) (filePath params)
              (message params)
              (utf8_to_base64 node (replace params (oldContent node fd)))
              (file_sha fd) head)
           (CommitRes c);
        Ev (PullsCreate (baseRepo params) (baseBranch params rd)
              (params_owner params ++ ":" ++ head)
              (first (split (message params) blank_line))
              (join (slice1 (split (message params) blank_line)) blank_line))
           (PullRes pr)] /\
       url = html_url pr).
Proof.
  run_cases api node params w.
  all: unfold_shape_all.
  all: intros Hrepo Hpush' Hbranch Hprot'.
  all: use_in Hrepo.
  all: try congruence.
  all: use_in Hbranch.
  all: try congruence.
  all: repeat match goal with
              | H : (List.length ?es <= 0)%nat |- _ =>
                  destruct es; [clear H | simpl in H; lia]
              | H : List.length ?es = 0%nat |- _ =>
                  destruct es; [clear H | discriminate H]
              end.
  all: unfold retry_log in *; cbn [flat_map app] in *.
  all: split; [reflexivity |].
  all: split; intros.
  all: try match goal with H : In _ _ |- _ => use_in H end.
  all: try solve [split; reflexivity | discriminate].
  match goal with
  | H : inl _ = inl _ |- _ => inversion H; clear H; subst
  end.
  exists t, fd, c, pr. split; reflexivity.
Qed.

(** In the log of a run every rejection is settled. *)
Lemma run_settled :
  settled (result (editGithubBlob api node params w))
    (log (editGithubBlob api node params w)).
Proof.
  run_cases api node params w.
  all: unfold_shape_all.
  all: rewrite <- ?app_assoc; cbn [app].
  all: settle.
Qed.

(** X2.  No rejection is swallowed but that of a ref creation that is
    retried.  Wherever a rejection stands in the log, either it is the last
    event and the result of the run, or it is the rejection of a ref
    creation and a delay of 5000 milliseconds and another attempt of the
    same request come next.  So a rejection of any other call is the last
    event and the result; the log of a run that returns holds no rejection
    but of ref creations; and a run that fails does so with the rejection
    its log ends with, or right after an answered fetch: with the directory
    guard's error when the answer is a directory, and with the no-op
    guard's error when it is a file that [replace] returns as it was. *)
Theorem rejections_end_the_run :
  (forall pre rq e post,
     log (editGithubBlob api node params w)
     = (pre ++ Ev rq (Rejected e) :: post)%list ->
     (post = [] /\ result (editGithubBlob api node params w) = inr e) \/
     (is_createRef rq = true /\
      exists ans post',
        post = Ev (SetTimeout 5000) TimerFired :: Ev rq ans :: post')) /\
  (forall rq e,
     In (Ev rq (Rejected e)) (log (editGithubBlob api node params w)) ->
     is_createRef rq = false ->
     result (editGithubBlob api node params w) = inr e /\
     exists pre,
       log (editGithubBlob api node params w)
       = (pre ++ [Ev rq (Rejected e)])%list) /\
  (forall url rq e,
     result (editGithubBlob api node params w) = inl url ->
     In (Ev rq (Rejected e)) (log (editGithubBlob api node params w)) ->
     is_createRef rq = true) /\
  (forall e,
     result (editGithubBlob api node params w) = inr e ->
     (exists rq pre,
        log (editGithubBlob api node params w)
        = (pre ++ [Ev rq (Rejected e)])%list) \/
     (exists hr path ref d,
        (exists pre,
           log (editGithubBlob api node params w)
           = (pre ++ [Ev (ReposGetContents hr path ref) (ContentsRes d)])%list)
        /\ (forall entries, d = Listing entries -> e = NotAFileError params)
        /\ (forall fd,
              d = File fd ->
              replace params (oldContent node fd) = oldContent node fd ->
              e = NoChangeError))).
Proof.
  split; [exact (settled_at _ _ run_settled) |].
  run_cases api node params w.
  all: unfold_shape_all.
  all: split; [| split]; intros.
  all: try match goal with H : In _ _ |- _ => use_in H end.
  all: try match goal with
           | H : inr _ = inr _ |- _ => inversion H; clear H; subst
           end.
  all: try discriminate.
  all: try reflexivity.
  all: try solve [split; [reflexivity | ends_with]].
  all: try solve [left; eexists; ends_with].
  all: right; do 4 eexists; (split; [ends_with |]).
  all: split; intros; try discriminate; reflexivity.
Qed.

(** X3.  The base branch.  The branch that is resolved, and into which a
    pull request is opened, is the caller's [branch] when it is given and
    not empty, and the default branch the repository answered otherwise; an
    empty [branch] counts as none.  Both requests go to the base
    repository. *)
Theorem base_branch_resolution (rd : ReposGetData) :
  In (Ev (ReposGet (baseRepo params)) (RepoRes rd))
     (log (editGithubBlob api node params w)) ->
  let resolved_to (b : string) :=
    (branch params = None \/ branch params = Some "" ->
     b = default_branch rd) /\
    (forall given, branch params = Some given -> given <> "" -> b = given) in
  (forall r b ans,
     In (Ev (ReposGetBranch r b) ans)
        (log (editGithubBlob api node params w)) ->
     r = baseRepo params /\ resolved_to b) /\
  (forall r base head title body ans,
     In (Ev (PullsCreate r base head title body) ans)
        (log (editGithubBlob api node params w)) ->
     r = baseRepo params /\ resolved_to base).
Proof.
  intros Hrepo. cbv zeta.
  assert (Hbase :
    (branch params = None \/ branch params = Some "" ->
     baseBranch params rd = default_branch rd) /\
    (forall given, branch params = Some given -> given <> "" ->
                   baseBranch params rd = given)).
  { unfold baseBranch, or_else, truthy. split.
    - intros [-> | ->]; reflexivity.
    - intros given -> Hne.
      destruct (String.eqb_spec given ""); [congruence | reflexivity]. }
  revert Hrepo. run_cases api node params w.
  all: unfold_shape_all.
  all: intros Hrepo.
  all: use_in Hrepo.
  all: split; intros.
  all: try match goal with H : In _ _ |- _ => use_in H end.
  all: split; [reflexivity | exact Hbase].
Qed.

(** X4.  What is committed.  Every commit request goes to the repository,
    the path and the branch the content was fetched from, names the blob
    that was fetched, and carries the encoding of what [replace] made of the
    decoded content, which is not what it was given. *)
Theorem commit_of_the_fetched_file :
  forall hr path msg cont s b ans,
    In (Ev (ReposCreateOrUpdateFile hr path msg cont s b) ans)
       (log (editGithubBlob api node params w)) ->
    exists fd,
      In (Ev (ReposGetContents hr path b) (ContentsRes (File fd)))
         (log (editGithubBlob api node params w)) /\
      path = filePath params /\
      s = file_sha fd /\
      cont
      = utf8_to_base64 node
          (replace params (base64_to_utf8 node (or_else (content fd) ""))) /\
      replace params (base64_to_utf8 node (or_else (content fd) ""))
      <> base64_to_utf8 node (or_else (content fd) "").
Proof.
  run_cases api node params w.
  all: unfold_shape_all.
  all: intros.
  all: match goal with H : In _ _ |- _ => use_in H end.
  all: eexists; split; [find_in |].
  all: repeat split; try reflexivity; assumption.
Qed.

(** X5.  What a run never does.  It begins with the resolution of the base
    repository; it requests at most one fork, one commit and one pull
    request, at most seven creations of a ref and six delays; and its log
    has at most twenty events. *)
Theorem run_bounds :
  (exists ans rest,
     log (editGithubBlob api node params w)
     = Ev (ReposGet (baseRepo params)) ans :: rest) /\
  (List.length (sent is_createFork (log (editGithubBlob api node params w)))
   <= 1)%nat /\
  (List.length (sent is_commit (log (editGithubBlob api node params w)))
   <= 1)%nat /\
  (List.length (sent is_pull (log (editGithubBlob api node params w)))
   <= 1)%nat /\
  (List.length (attempts (log (editGithubBlob api node params w)))
   <= 7)%nat /\
  (List.length (delays (log (editGithubBlob api node params w))) <= 6)%nat /\
  (List.length (log (editGithubBlob api node params w)) <= 20)%nat.
Proof.
  run_cases api node params w.
  all: unfold_shape_all.
  all: split; [do 2 eexists; reflexivity |].
  all: count_sent; count_log.
  all: rewrite ?length_app, ?length_map, ?repeat_length.
  all: cbn [List.length].
  all: rewrite ?length_app, ?retry_log_length.
  all: cbn [List.length].
  all: repeat split; lia.
Qed.

(** X6.  A run returns only after a commit was accepted, and a run that
    fails after a commit was accepted fails with the rejection of the pull
    request: the one way a failed run leaves a commit behind. *)
Theorem commit_then_failure :
  (forall url,
     result (editGithubBlob api node params w) = inl url ->
     exists hr path msg cont s b c,
       In (Ev (ReposCreateOrUpdateFile hr path msg cont s b) (CommitRes c))
          (log (editGithubBlob api node params w))) /\
  (forall e hr path msg cont s b c,
     result (editGithubBlob api node params w) = inr e ->
     In (Ev (ReposCreateOrUpdateFile hr path msg cont s b) (CommitRes c))
        (log (editGithubBlob api node params w)) ->
     exists base head title body,
       In (Ev (PullsCreate (baseRepo params) base head title body)
              (Rejected e))
          (log (editGithubBlob api node params w))).
Proof.
  run_cases api node params w.
  all: unfold_shape_all.
  all: split; intros.
  all: try match goal with H : In _ _ |- _ => use_in H end.
  all: try discriminate.
  all: try match goal with
           | H : inr _ = inr _ |- _ => inversion H; clear H; subst
           end.
  all: try solve [do 7 eexists; find_in].
  all: do 4 eexists; find_in.
Qed.

(** More retries do not change an attempt that succeeded. *)
Lemma retry_left_more {A} (delay : Z) (fn : M W A) :
  forall (n m : nat), (n <= m)%nat ->
  forall w0 a w' l,
    retry_left api n delay fn w0 = (inl a, w', l) ->
    retry_left api m delay fn w0 = (inl a, w', l).
Proof.
  induction n as [| n IH]; intros m Hle w0 a w' l Hrun.
  - rewrite retry_left_O in Hrun.
    destruct m; [rewrite retry_left_O; exact Hrun |].
    rewrite retry_left_S, Hrun. reflexivity.
  - destruct m as [| m]; [lia |].
    rewrite retry_left_S in Hrun. rewrite retry_left_S.
    destruct (fn w0) as [[[a0 | e0] w1] l1]; [exact Hrun |].
    destruct (retry_left api n delay fn (set_timeout api delay w1))
      as [[r2 w2] l2] eqn:Hrec.
    injection Hrun as -> -> <-.
    rewrite (IH m ltac:(lia) _ _ _ _ Hrec). reflexivity.
Qed.

(** X7.  The budget of [retry], for any operation.  With [times] zero or
    negative the operation is attempted once, without a delay, and its
    outcome is the outcome of [retry]; and an outcome that is a success
    stays the same, log included, under any larger [times]: no retry is
    taken that is not needed. *)
Theorem retry_budget {A} (delay : Z) (fn : M W A) :
  (forall times w0, times <= 0 -> retry api times delay fn w0 = fn w0) /\
  (forall t1 t2 w0 a w' l,
     t1 <= t2 ->
     retry api t1 delay fn w0 = (inl a, w', l) ->
     retry api t2 delay fn w0 = (inl a, w', l)).
Proof.
  split.
  - intros times w0 Hle. unfold retry.
    replace (Z.to_nat times) with 0%nat by lia. apply retry_left_O.
  - intros t1 t2 w0 a w' l Hle. unfold retry.
    apply retry_left_more. lia.
Qed.

(** X8.  The outcome of [retry], for any operation, is the outcome of its
    last attempt: the value or the error is the one the operation gave in
    some world, the world is the one it left there, and the log ends with
    what it logged there.  An error of an earlier attempt is never the
    result unless the last attempt gave it too. *)
Theorem retry_last_attempt {A} (times delay : Z) (fn : M W A) (w0 : W) :
  exists w1 pre l1,
    fn w1 = (result (retry api times delay fn w0),
             world (retry api times delay fn w0), l1) /\
    log (retry api times delay fn w0) = (pre ++ l1)%list.
Proof.
  unfold retry. generalize (Z.to_nat times) as n. intros n. revert w0.
  induction n as [| n IH]; intros w0.
  - rewrite retry_left_O. exists w0, [].
    destruct (fn w0) as [[r w'] l]. exists l. split; reflexivity.
  - rewrite retry_left_S.
    destruct (fn w0) as [[[a | e] w1] l1] eqn:Hfn.
    + exists w0, [], l1. split; [exact Hfn | reflexivity].
    + destruct (IH (set_timeout api delay w1))
        as (w2 & pre & l2 & Hlast & Hlog).
      destruct (retry_left api n delay fn (set_timeout api delay w1))
        as [[r3 w3] l3].
      unfold result, world, log in *. simpl in *.
      exists w2, (l1 ++ Ev (SetTimeout delay) TimerFired :: pre)%list, l2.
      split; [exact Hlast |].
      rewrite Hlog, <- app_assoc. reflexivity.
Qed.

(** X9.  The caller's commit message.  A message that is given and not
    empty is the message of the commit, and the title and the body of the
    pull request are its two parts; an empty message counts as none, and
    the commit is named after the file. *)
Theorem given_commit_message (given : string) :
  commitMessage params = Some given ->
  let used := if (given =? "")%string
              then "Update " ++ filePath params else given in
  (forall hr path msg cont s b ans,
     In (Ev (ReposCreateOrUpdateFile hr path msg cont s b) ans)
        (log (editGithubBlob api node params w)) ->
     msg = used) /\
  (forall r base head title body ans,
     In (Ev (PullsCreate r base head title body) ans)
        (log (editGithubBlob api node params w)) ->
     title = first (split used blank_line) /\
     body = join (slice1 (split used blank_line)) blank_line).
Proof.
  intros Hgiven. cbv zeta.
  assert (Hmsg : message params
                 = if (given =? "")%string
                   then "Update " ++ filePath params else given).
  { unfold message, or_else, truthy. rewrite Hgiven.
    destruct (given =? "")%string; reflexivity. }
  run_cases api node params w.
  all: unfold_shape_all.
  all: split; intros.
  all: match goal with H : In _ _ |- _ => use_in H end.
  all: rewrite <- ?Hmsg; try split; reflexivity.
Qed.

(** X10.  The pull request and the commit.  A pull request is only opened
    after a commit was accepted, and from the branch that got it: its head
    is [owner:branch] for the repository and the branch of the commit, a
    branch the run created from the commit the base branch pointed to, and
    its title and body are the two parts of the message of the commit. *)
Theorem pull_request_of_the_commit :
  forall r base head title body ans,
    In (Ev (PullsCreate r base head title body) ans)
       (log (editGithubBlob api node params w)) ->
    exists hr path msg cont s b c bd,
      In (Ev (ReposCreateOrUpdateFile hr path msg cont s b) (CommitRes c))
         (log (editGithubBlob api node params w)) /\
      In (Ev (ReposGetBranch r base) (BranchRes bd))
         (log (editGithubBlob api node params w)) /\
      In (Ev (GitCreateRef hr ("refs/heads/" ++ b) (sha (commit bd)))
             RefCreated)
         (log (editGithubBlob api node params w)) /\
      head = owner hr ++ ":" ++ b /\
      title = first (split msg blank_line) /\
      body = join (slice1 (split msg blank_line)) blank_line.
Proof.
  run_cases api node params w.
  all: unfold_shape_all.
  all: intros.
  all: match goal with H : In _ _ |- _ => use_in H end.
  all: do 8 eexists.
  all: split; [find_in |].
  all: split; [find_in |].
  all: split; [find_in |].
  all: repeat split; reflexivity.
Qed.

(** X11.  The ref that is created.  Every attempt of a run asks for the same
    ref: the name is made once, before the first attempt, from one reading
    of the clock, and the commit is the one the base branch answered.  No
    attempt is made before the clock was read. *)
Theorem one_ref_per_run :
  forall hr ref s ans,
    In (Ev (GitCreateRef hr ref s) ans)
       (log (editGithubBlob api node params w)) ->
    (forall ev, In ev (attempts (log (editGithubBlob api node params w))) ->
                req ev = GitCreateRef hr ref s) /\
    exists rd bd t,
      In (Ev (ReposGet (baseRepo params)) (RepoRes rd))
         (log (editGithubBlob api node params w)) /\
      In (Ev (ReposGetBranch (baseRepo params) (baseBranch params rd))
             (BranchRes bd))
         (log (editGithubBlob api node params w)) /\
      sent (fun rq => match rq with DateNow => true | _ => false end)
        (log (editGithubBlob api node params w))
      = [Ev DateNow (Clock t)] /\
      s = sha (commit bd) /\
      ref = "refs/heads/" ++ "update-" ++ basename node (filePath params)
              ++ "-" ++ string_of_Z (round_seconds t).
Proof.
  run_cases api node params w.
  all: unfold_shape_all.
  all: intros hr ref s ans Hin.
  all: use_in Hin.
  all: split.
  all: try (intros ev Hev; revert Hev; count_log; intros Hev;
            apply in_app_or in Hev; destruct Hev as [Hev | Hev];
            [ apply in_map_iff in Hev; destruct Hev as [? [<- _]]
            | destruct Hev as [<- | []] ]; reflexivity).
  all: do 3 eexists.
  all: split; [find_in |].
  all: split; [find_in |].
  all: split; [count_sent; reflexivity |].
  all: split; reflexivity.
Qed.

End Coverage.

(** ** These properties on runs against the scripted server *)

(** Behind a protected branch a caller who may push gets a pull request from
    a branch of the repository itself. *)
Lemma same_repo_pull_request_witness :
  let out := Mock.run Mock.guarded Mock.bump None 1573334000000 in
  push (permissions (Mock.repo_answer Mock.guarded)) = true /\
  protected (Mock.branch_answer Mock.guarded) = true /\
  fork_requested (log out) = false /\
  result out = inl "https://github.com/Homebrew/homebrew-core/pull/1" /\
  map req (log out)
  = [ReposGet Mock.upstream;
     ReposGetBranch Mock.upstream "master";
     DateNow;
     GitCreateRef Mock.upstream "refs/heads/update-hello.rb-1573334000"
       "c0ffee";
     ReposGetContents Mock.upstream "Formula/hello.rb"
       "update-hello.rb-1573334000";
     ReposCreateOrUpdateFile Mock.upstream "Formula/hello.rb"
       "Update Formula/hello.rb" (Node.encode "version 1.1") "b10b"
       "update-hello.rb-1573334000";
     PullsCreate Mock.upstream "master" "Homebrew:update-hello.rb-1573334000"
       "Update Formula/hello.rb" ""].
Proof.
  destruct (same_repo_pull_request (Mock.env Mock.guarded) Node.platform
              (Mock.request Mock.bump None) (Mock.start 1573334000000)
              (Mock.repo_answer Mock.guarded)
              (Mock.branch_answer Mock.guarded))
    as (Hfork & _ & Hlog).
  - in_run.
  - reflexivity.
  - in_run.
  - reflexivity.
  - destruct (Hlog _ eq_refl) as (t & fd & c & pr & Hshape & Hurl).
    split; [reflexivity |]. split; [reflexivity |].
    split; [exact Hfork |]. split; reflexivity.
Defined.

(** A ref that is never accepted: the log of the run ends with the seventh
    rejection, and it is the result; the first rejection was followed by a
    delay and another attempt. *)
Lemma rejections_end_the_run_witness :
  let out := Mock.run Mock.stuck Mock.bump None 1573334000000 in
  let rejected :=
    Ev (GitCreateRef Mock.fork "refs/heads/update-hello.rb-1573334000"
          "c0ffee")
       (Rejected (HttpError 404 "Not Found")) in
  log out = (firstn 16 (log out) ++ [rejected])%list /\
  log out = (firstn 4 (log out) ++ rejected :: skipn 5 (log out))%list /\
  result out = inr (HttpError 404 "Not Found") /\
  exists ans post,
    skipn 5 (log out)
    = Ev (SetTimeout 5000) TimerFired
        :: Ev (GitCreateRef Mock.fork
                 "refs/heads/update-hello.rb-1573334000" "c0ffee") ans
        :: post.
Proof.
  destruct (rejections_end_the_run (Mock.env Mock.stuck) Node.platform
              (Mock.request Mock.bump None) (Mock.start 1573334000000))
    as (Hat & _).
  assert (Hlast :
    log (Mock.run Mock.stuck Mock.bump None 1573334000000)
    = (firstn 16 (log (Mock.run Mock.stuck Mock.bump None 1573334000000))
       ++ [Ev (GitCreateRef Mock.fork
                 "refs/heads/update-hello.rb-1573334000" "c0ffee")
              (Rejected (HttpError 404 "Not Found"))])%list)
    by (vm_compute; reflexivity).
  assert (Hfirst :
    log (Mock.run Mock.stuck Mock.bump None 1573334000000)
    = (firstn 4 (log (Mock.run Mock.stuck Mock.bump None 1573334000000))
       ++ Ev (GitCreateRef Mock.fork
                "refs/heads/update-hello.rb-1573334000" "c0ffee")
             (Rejected (HttpError 404 "Not Found"))
          :: skipn 5
               (log (Mock.run Mock.stuck Mock.bump None 1573334000000)))%list)
    by (vm_compute; reflexivity).
  split; [exact Hlast |]. split; [exact Hfirst |].
  split.
  - destruct (Hat _ _ _ _ Hlast) as [[_ Hres] | [_ (ans & post & Hpost)]];
      [exact Hres | discriminate Hpost].
  - destruct (Hat _ _ _ _ Hfirst) as [[Hnil _] | [_ Hnext]];
      [vm_compute in Hnil; discriminate Hnil | exact Hnext].
Defined.

(** An empty [branch] is no branch: the default branch is resolved. *)
Lemma base_branch_resolution_witness :
  let params :=
    mkOptions "Homebrew" "homebrew-core" "Formula/hello.rb" (Some "")
      Mock.bump None in
  let out :=
    editGithubBlob (Mock.env Mock.direct) Node.platform params
      (Mock.start 0) in
  (exists ans, In (Ev (ReposGetBranch Mock.upstream "master") ans) (log out))
  /\
  (forall r b ans,
     In (Ev (ReposGetBranch r b) ans) (log out) ->
     r = Mock.upstream /\ b = "master").
Proof.
  destruct (base_branch_resolution (Mock.env Mock.direct) Node.platform
              (mkOptions "Homebrew" "homebrew-core" "Formula/hello.rb"
                 (Some "") Mock.bump None)
              (Mock.start 0) (Mock.repo_answer Mock.direct))
    as (Hbranch & _).
  - in_run.
  - split.
    + exists (BranchRes (Mock.branch_answer Mock.direct)). in_run.
    + intros r b ans Hin.
      destruct (Hbranch r b ans Hin) as (Hr & Hdefault & _).
      split; [exact Hr |]. apply Hdefault. right. reflexivity.
Defined.

(** The commit of the bumped formula names the blob that was fetched. *)
Lemma commit_of_the_fetched_file_witness :
  let out := Mock.run Mock.direct Mock.bump None 0 in
  exists fd,
    In (Ev (ReposGetContents Mock.upstream "Formula/hello.rb" "master")
           (ContentsRes (File fd))) (log out) /\
    "b10b" = file_sha fd /\
    Node.encode "version 1.1"
    = Node.encode (Mock.bump (Node.decode (or_else (content fd) ""))).
Proof.
  destruct (commit_of_the_fetched_file (Mock.env Mock.direct) Node.platform
              (Mock.request Mock.bump None) (Mock.start 0)
              Mock.upstream "Formula/hello.rb" "Update Formula/hello.rb"
              (Node.encode "version 1.1") "b10b" "master"
              (CommitRes
                 (mkCommitData
                    "https://github.com/Homebrew/homebrew-core/commit/1")))
    as (fd & Hfetch & _ & Hsha & Hcont & _).
  - in_run.
  - exists fd. repeat split; assumption.
Defined.

(** A run with a fork that is slow to accept a ref stays within the
    bounds. *)
Lemma run_bounds_witness :
  let out := Mock.run Mock.stuck Mock.bump None 1573334000000 in
  (List.length (attempts (log out)) <= 7)%nat /\
  (List.length (delays (log out)) <= 6)%nat /\
  (List.length (log out) <= 20)%nat /\
  List.length (log out) = 17%nat.
Proof.
  destruct (run_bounds (Mock.env Mock.stuck) Node.platform
              (Mock.request Mock.bump None) (Mock.start 1573334000000))
    as (_ & _ & _ & _ & Ha & Hd & Hl).
  split; [exact Ha |]. split; [exact Hd |]. split; [exact Hl |].
  reflexivity.
Defined.

(** A run that returns has committed. *)
Lemma commit_then_failure_witness :
  let out := Mock.run Mock.direct Mock.bump None 0 in
  exists hr path msg cont s b c,
    In (Ev (ReposCreateOrUpdateFile hr path msg cont s b) (CommitRes c))
       (log out).
Proof.
  destruct (commit_then_failure (Mock.env Mock.direct) Node.platform
              (Mock.request Mock.bump None) (Mock.start 0))
    as (Hcommit & _).
  exact (Hcommit _ eq_refl).
Defined.

(** A negative budget is one attempt; and the fork that accepts a ref at the
    third attempt gives the same outcome under six retries as under two. *)
Lemma retry_budget_witness :
  let fn :=
    api_git_createRef (Mock.env Mock.lagging) Mock.fork "refs/heads/b"
      "c0ffee" in
  retry (Mock.env Mock.lagging) (-3) 5000 fn (Mock.start 0)
  = fn (Mock.start 0) /\
  retry (Mock.env Mock.lagging) 6 5000 fn (Mock.start 0)
  = retry (Mock.env Mock.lagging) 2 5000 fn (Mock.start 0) /\
  result (retry (Mock.env Mock.lagging) 2 5000 fn (Mock.start 0)) = inl tt.
Proof.
  destruct (retry_budget (Mock.env Mock.lagging) 5000
              (api_git_createRef (Mock.env Mock.lagging) Mock.fork
                 "refs/heads/b" "c0ffee"))
    as (Honce & Hmore).
  split; [apply Honce; lia |].
  split; [| reflexivity].
  apply (Hmore 2 6); [lia | reflexivity].
Defined.

(** The caller's message is the message of the commit. *)
Lemma given_commit_message_witness :
  let out := Mock.run Mock.outsider Mock.bump (Some "Bump hello") 0 in
  (exists hr path cont s b ans,
     In (Ev (ReposCreateOrUpdateFile hr path "Bump hello" cont s b) ans)
        (log out)) /\
  (forall hr path msg cont s b ans,
     In (Ev (ReposCreateOrUpdateFile hr path msg cont s b) ans) (log out) ->
     msg = "Bump hello").
Proof.
  destruct (given_commit_message (Mock.env Mock.outsider) Node.platform
              (Mock.request Mock.bump (Some "Bump hello")) (Mock.start 0)
              "Bump hello" eq_refl)
    as (Hcommit & _).
  split; [| exact Hcommit].
  exists Mock.fork, "Formula/hello.rb", (Node.encode "version 1.1"), "b10b",
    "update-hello.rb-0",
    (CommitRes
       (mkCommitData "https://github.com/bot/homebrew-core/commit/1")).
  in_run.
Defined.

(** The pull request of a caller who may not push comes from the branch of
    the fork that got the commit. *)
Lemma pull_request_of_the_commit_witness :
  let out := Mock.run Mock.outsider Mock.bump None 1573334000000 in
  exists hr path msg cont s b c bd,
    In (Ev (ReposCreateOrUpdateFile hr path msg cont s b) (CommitRes c))
       (log out) /\
    In (Ev (GitCreateRef hr ("refs/heads/" ++ b) (sha (commit bd)))
           RefCreated) (log out) /\
    "bot:update-hello.rb-1573334000" = owner hr ++ ":" ++ b.
Proof.
  destruct (pull_request_of_the_commit (Mock.env Mock.outsider)
              Node.platform (Mock.request Mock.bump None)
              (Mock.start 1573334000000)
              Mock.upstream "master" "bot:update-hello.rb-1573334000"
              "Update Formula/hello.rb" ""
              (PullRes
                 (mkPullData
                    "https://github.com/Homebrew/homebrew-core/pull/1")))
    as (hr & path & msg & cont & s & b & c & bd
        & Hcommit & _ & Hcreated & Hhead & _).
  - in_run.
  - exists hr, path, msg, cont, s, b, c, bd. repeat split; assumption.
Defined.

(** The three attempts of a run whose fork lags ask for one ref. *)
Lemma one_ref_per_run_witness :
  let out := Mock.run Mock.lagging Mock.bump None 1573334000000 in
  List.length (attempts (log out)) = 3%nat /\
  forall ev, In ev (attempts (log out)) ->
             req ev
             = GitCreateRef Mock.fork "refs/heads/update-hello.rb-1573334000"
                 "c0ffee".
Proof.
  destruct (one_ref_per_run (Mock.env Mock.lagging) Node.platform
              (Mock.request Mock.bump None) (Mock.start 1573334000000)
              Mock.fork "refs/heads/update-hello.rb-1573334000" "c0ffee"
              RefCreated)
    as (Hsame & _).
  - in_run.
  - split; [reflexivity | exact Hsame].
Defined.

(** The outcome of the retried creation is that of its last attempt. *)
Lemma retry_last_attempt_witness :
  let fn :=
    api_git_createRef (Mock.env Mock.lagging) Mock.fork "refs/heads/b"
      "c0ffee" in
  exists w1 pre l1,
    fn w1 = (inl tt, Mock.mkState 10000 3, l1) /\
    log (retry (Mock.env Mock.lagging) 6 5000 fn (Mock.start 0))
    = (pre ++ l1)%list.
Proof.
  exact (retry_last_attempt (Mock.env Mock.lagging) 6 5000
           (api_git_createRef (Mock.env Mock.lagging) Mock.fork
              "refs/heads/b" "c0ffee")
           (Mock.start 0)).
Defined.
